(** * Inventory service (main.js): records coupled to uploaded photo files

    A shallow embedding of the Express handlers of [main.js] over the two
    stores they drive: the PostgreSQL table [inventory] (the spec's Record
    Store) and the [uploads] directory written by multer (the spec's Asset
    Store).  Every handler is a computation in a small monad that threads
    the two stores, records each store mutation together with the state it
    produces (the states a concurrent reader can observe), and can throw,
    as a rejected query does.

    Scope of the model.  One request runs at a time, from the upload
    middleware to the response; the database and the file system answer
    (the failures modelled are the ones the schema of [initDb] decides:
    column types and lengths, the primary key, the end of the sequence).
    Body fields are strings or absent and the [:id] parameter is an
    integer, as the OpenAPI block of each route declares them. *)

From stdpp Require Import gmap strings pretty list fin_maps sorting.
From Stdlib Require Import ZArith Ascii.

Open Scope Z_scope.

(** ** Data model *)

Abbreviation bytes := (list Byte.byte).

(** One row of
    [inventory (id SERIAL PRIMARY KEY, name VARCHAR(255) NOT NULL,
                description TEXT, photo VARCHAR(255),
                created_at TIMESTAMP DEFAULT now())];
    the [id] is the key under which the row is kept. *)
Record row := Row {
  name : string;
  description : option string;
  photo : option string;
  created_at : Z
}.

(** The table with the sequence behind its SERIAL column, and the files of
    the uploads directory by file name ([path.join(uploadDir, f)] names one
    file per stored name [f]). *)
Record store := Store {
  inventory : gmap Z row;
  inventory_id_seq : Z;
  uploads : gmap string bytes
}.

(** What a request reads from its surroundings: [Date.now()] for multer's
    file name and the database clock for [created_at]. *)
Record env := Env {
  date_now : N;
  pg_now : Z
}.

(** The file part [photo] of a multipart request, as multer accepts it (a
    part that carries a file name), before it is stored. *)
Record part := Part {
  originalname : string;
  content : bytes
}.

(** Columns of [RETURNING id, name, description, photo]. *)
Record item := Item {
  item_id : Z;
  item_name : string;
  item_description : option string;
  item_photo : option string
}.

Inductive body :=
| Text (s : string)
| JsonRecord (id : Z) (r : row)
| JsonItem (o : option item)
| JsonView (id : Z) (nm : string) (d : option string) (photo_url : option string)
| File (content_type : string) (b : bytes).

Record response := Response {
  status : Z;
  payload : body
}.

(** Store mutations, in the order the handlers perform them. *)
Inductive event :=
| FsWrite (f : string) (b : bytes)
| FsUnlink (f : string)
| SeqAdvance
| SqlInsert (id : Z)
| SqlUpdate (id : Z)
| SqlUpdatePhoto (id : Z) (f : string)
| SqlDelete (id : Z).

(** ** The handler monad: state, a log of mutations, exceptions *)

Inductive outcome (A : Type) :=
| Ret (a : A)
| Throw.
Arguments Ret {A} a.
Arguments Throw {A}.

Definition trace := list (event * store).

Definition M (A : Type) : Type := store -> trace * store * outcome A.

Definition ret {A} (a : A) : M A := fun s => ([], s, Ret a).

Definition throw {A} : M A := fun s => ([], s, Throw).

Definition bind {A B} (m : M A) (k : A -> M B) : M B :=
  fun s =>
    match m s with
    | (t1, s1, Ret a) =>
        match k a s1 with
        | (t2, s2, o) => (t1 ++ t2, s2, o)
        end
    | (t1, s1, Throw) => (t1, s1, Throw)
    end.

Declare Scope handler_scope.
Delimit Scope handler_scope with handler.
Notation "x <- m ;; k" := (bind m (fun x => k))
  (at level 100, m at next level, right associativity) : handler_scope.
Notation "m ;; k" := (bind m (fun _ => k))
  (at level 100, right associativity) : handler_scope.
Open Scope handler_scope.

(** [try { ... } catch (err) { res.status(500).send("DB error") }] *)
Definition try_catch (m : M response) : M response :=
  fun s =>
    match m s with
    | (t, s', Ret r) => (t, s', Ret r)
    | (t, s', Throw) => (t, s', Ret (Response 500 (Text "DB error")))
    end.

(** One mutation: the new store, logged with its event. *)
Definition effect (e : event) (f : store -> store) : M unit :=
  fun s => ([(e, f s)], f s, Ret tt).

(** ** JavaScript values *)

(** Truthiness of a body field or column that is a string, [undefined] or
    [null]: only a non-empty string is truthy. *)
Definition truthy (v : option string) : bool :=
  match v with
  | Some (String _ _) => true
  | _ => false
  end.

(** [v || null] *)
Definition or_null (v : option string) : option string :=
  if truthy v then v else None.

(** ** The uploads directory *)

Definition existsSync (f : string) : M bool :=
  fun s => ([], s, Ret (bool_decide (is_Some (uploads s !! f)))).

Definition unlinkSync (f : string) : M unit :=
  effect (FsUnlink f)
    (fun s => Store (inventory s) (inventory_id_seq s) (delete f (uploads s))).

(** multer's [diskStorage]: [filename] is [`${Date.now()}_${file.originalname}`]. *)
Definition filename (e : env) (p : part) : string :=
  pretty (date_now e) +:+ "_" +:+ originalname p.

(** [upload.single("photo")]: the file part, when there is one, is written
    to the uploads directory before the handler runs; the result is
    [req.file.filename], or [None] when [req.file] is undefined. *)
Definition upload_single (e : env) (p : option part) : M (option string) :=
  match p with
  | None => ret None
  | Some f =>
      effect (FsWrite (filename e f) (content f))
        (fun s => Store (inventory s) (inventory_id_seq s)
                    (<[filename e f := content f]> (uploads s)));;
      ret (Some (filename e f))
  end.

(** ** The table *)

(** Values of the column type of [id] (a 32-bit integer); a parameter
    outside it makes the query fail. *)
Definition int4 (z : Z) : bool := (-2147483648 <=? z) && (z <=? 2147483647).

(** [VARCHAR(255)]: a value of more than 255 characters (one [ascii] each)
    is refused.  An excess made of spaces only, which PostgreSQL cuts off
    instead, is not told apart: it counts as refused. *)
Definition varchar255 (s : string) : bool := (String.length s <=? 255)%nat.

Definition varchar255_opt (v : option string) : bool :=
  match v with
  | Some s => varchar255 s
  | None => true
  end.

(** The SERIAL sequence issues 1 .. 2147483647 and then fails. *)
Definition seq_can_issue (z : Z) : bool := (1 <=? z) && (z <=? 2147483647).

Definition returning (id : Z) (r : row) : item :=
  Item id (name r) (description r) (photo r).

(** [SELECT ... FROM inventory WHERE id=$1]: [result.rows[0]], if any. *)
Definition sql_select (id : Z) : M (option row) :=
  fun s => if int4 id then ([], s, Ret (inventory s !! id)) else throw s.

(** [INSERT INTO inventory (name, description, photo) VALUES ($1, $2, $3)
     RETURNING id, name, description, photo, created_at].  The values are
    checked against their columns; then the sequence issues the id (the
    value is spent also when the primary key refuses the row). *)
Definition sql_insert (e : env) (nm : string) (d ph : option string) : M (Z * row) :=
  fun s =>
    if varchar255 nm && varchar255_opt ph && seq_can_issue (inventory_id_seq s) then
      let id := inventory_id_seq s in
      match inventory s !! id with
      | Some _ =>
          let s1 := Store (inventory s) (id + 1) (uploads s) in
          ([(SeqAdvance, s1)], s1, Throw)
      | None =>
          let r := Row nm d ph (pg_now e) in
          let s1 := Store (<[id := r]> (inventory s)) (id + 1) (uploads s) in
          ([(SqlInsert id, s1)], s1, Ret (id, r))
      end
    else throw s.

(** [UPDATE inventory SET name = COALESCE($1, name),
     description = COALESCE($2, description) WHERE id=$3
     RETURNING id, name, description, photo]: [updated.rows[0]]. *)
Definition sql_update (nm d : option string) (id : Z) : M (option item) :=
  fun s =>
    if int4 id && varchar255_opt nm then
      match inventory s !! id with
      | None => ([], s, Ret None)
      | Some r =>
          let r' := Row (default (name r) nm)
                        (match d with Some x => Some x | None => description r end)
                        (photo r) (created_at r) in
          let s1 := Store (<[id := r']> (inventory s)) (inventory_id_seq s) (uploads s) in
          ([(SqlUpdate id, s1)], s1, Ret (Some (returning id r')))
      end
    else throw s.

(** [UPDATE inventory SET photo=$1 WHERE id=$2
     RETURNING id, name, description, photo]: [updated.rows[0]]. *)
Definition sql_update_photo (f : string) (id : Z) : M (option item) :=
  fun s =>
    if int4 id && varchar255 f then
      match inventory s !! id with
      | None => ([], s, Ret None)
      | Some r =>
          let r' := Row (name r) (description r) (Some f) (created_at r) in
          let s1 := Store (<[id := r']> (inventory s)) (inventory_id_seq s) (uploads s) in
          ([(SqlUpdatePhoto id f, s1)], s1, Ret (Some (returning id r')))
      end
    else throw s.

(** [DELETE FROM inventory WHERE id=$1] *)
Definition sql_delete (id : Z) : M unit :=
  fun s =>
    if int4 id then
      match inventory s !! id with
      | None => ([], s, Ret tt)
      | Some _ =>
          let s1 := Store (delete id (inventory s)) (inventory_id_seq s) (uploads s) in
          ([(SqlDelete id, s1)], s1, Ret tt)
      end
    else throw s.

(** ** Routes *)

Definition send (st : Z) (msg : string) : M response := ret (Response st (Text msg)).

Definition photo_url (id : Z) (ph : option string) : option string :=
  if truthy ph then Some ("/inventory/" +:+ pretty id +:+ "/photo") else None.

(** [app.post("/register", upload.single("photo"), ...)].  The match is
    [if (!inventory_name) return res.status(400)...]: past it the name is a
    non-empty string. *)
Definition post_register (e : env) (inventory_name descr : option string)
    (file : option part) : M response :=
  req_file <- upload_single e file;;
  try_catch (
    match inventory_name with
    | Some (String c nm) =>
        created <- sql_insert e (String c nm) (or_null descr) req_file;;
        ret (Response 201 (JsonRecord (fst created) (snd created)))
    | _ => send 400 "Bad Request: inventory_name обов'язкове"
    end).

(** [app.get("/inventory/:id", ...)] *)
Definition get_item (id : Z) : M response :=
  try_catch (
    result <- sql_select id;;
    match result with
    | None => send 404 "Not Found"
    | Some r =>
        ret (Response 200 (JsonView id (name r) (description r) (photo_url id (photo r))))
    end).

(** [app.put("/inventory/:id", ...)] *)
Definition put_item (id : Z) (inventory_name descr : option string) : M response :=
  try_catch (
    exists_ <- sql_select id;;
    match exists_ with
    | None => send 404 "Not Found"
    | Some _ =>
        updated <- sql_update (or_null inventory_name) (or_null descr) id;;
        ret (Response 200 (JsonItem updated))
    end).

(** [res.setHeader("Content-Type", ct); res.sendFile(path.join(uploadDir, f))]
    for a file that is there. *)
Definition sendFile (ct f : string) : M response :=
  fun s => ([], s, Ret (Response 200 (File ct (default [] (uploads s !! f))))).

(** [app.get("/inventory/:id/photo", ...)].  The inner match is
    [if (!photo) return ...]. *)
Definition get_photo (id : Z) : M response :=
  try_catch (
    result <- sql_select id;;
    match result with
    | None => send 404 "Not Found"
    | Some r =>
        match photo r with
        | Some (String c p) =>
            there <- existsSync (String c p);;
            if there : bool then sendFile "image/jpeg" (String c p)
            else send 404 "Photo Not Found"
        | _ => send 404 "Photo Not Found"
        end
    end).

(** [if (fs.existsSync(p)) fs.unlinkSync(p)], guarded by [if (photo)]. *)
Definition unlink_if_present (ph : option string) : M unit :=
  match ph with
  | Some (String c p) =>
      there <- existsSync (String c p);;
      if there : bool then unlinkSync (String c p) else ret tt
  | _ => ret tt
  end.

(** [app.put("/inventory/:id/photo", upload.single("photo"), ...)] *)
Definition put_photo (e : env) (id : Z) (file : option part) : M response :=
  req_file <- upload_single e file;;
  try_catch (
    result <- sql_select id;;
    match result with
    | None => send 404 "Not Found"
    | Some r =>
        match req_file with
        | None => send 400 "Bad Request: photo file required"
        | Some fname =>
            unlink_if_present (photo r);;
            updated <- sql_update_photo fname id;;
            ret (Response 200 (JsonItem updated))
        end
    end).

(** [app.delete("/inventory/:id", ...)] *)
Definition delete_item (id : Z) : M response :=
  try_catch (
    result <- sql_select id;;
    match result with
    | None => send 404 "Not Found"
    | Some r =>
        unlink_if_present (photo r);;
        sql_delete id;;
        send 200 "Deleted successfully"
    end).

(** ** Requests and runs *)

Inductive request :=
| PostRegister (inventory_name descr : option string) (file : option part)
| GetItem (id : Z)
| PutItem (id : Z) (inventory_name descr : option string)
| GetPhoto (id : Z)
| PutPhoto (id : Z) (file : option part)
| DeleteItem (id : Z).

Definition handle (e : env) (q : request) : M response :=
  match q with
  | PostRegister n d f => post_register e n d f
  | GetItem id => get_item id
  | PutItem id n d => put_item id n d
  | GetPhoto id => get_photo id
  | PutPhoto id f => put_photo e id f
  | DeleteItem id => delete_item id
  end.

(** The parts of a run of one request. *)
Definition steps_of {A} (x : trace * store * outcome A) : trace := fst (fst x).
Definition final_of {A} (x : trace * store * outcome A) : store := snd (fst x).
Definition result_of {A} (x : trace * store * outcome A) : outcome A := snd x.

Definition events_of {A} (x : trace * store * outcome A) : list event :=
  map fst (steps_of x).

(** The stores a reader can see while the request runs: the one it starts
    in and the one after each mutation. *)
Definition visible_of {A} (s : store) (x : trace * store * outcome A) : list store :=
  s :: map snd (steps_of x).

(** ** Responses and notions the properties are stated with *)

Definition not_found : response := Response 404 (Text "Not Found").
Definition asset_not_found : response := Response 404 (Text "Photo Not Found").
Definition deleted_ok : response := Response 200 (Text "Deleted successfully").
Definition db_error : response := Response 500 (Text "DB error").

(** The removal of a record's previous file, as [unlink_if_present] performs
    it against the files [fs]: one [FsUnlink] when the reference is truthy
    and the file is there, nothing otherwise. *)
Definition reclaimed (ph : option string) (fs : gmap string bytes) : list event :=
  match ph with
  | Some (String c p) =>
      if bool_decide (is_Some (fs !! String c p)) then [FsUnlink (String c p)] else []
  | _ => []
  end.

Definition without (ph : option string) (fs : gmap string bytes) : gmap string bytes :=
  match ph with
  | Some (String c p) => delete (String c p) fs
  | _ => fs
  end.

(** The store once [unlink_if_present ph] has run. *)
Definition after_unlink (ph : option string) (s : store) : store :=
  Store (inventory s) (inventory_id_seq s) (without ph (uploads s)).

(** The store once multer has written the file part [p]. *)
Definition stored (e : env) (p : part) (s : store) : store :=
  Store (inventory s) (inventory_id_seq s) (<[filename e p := content p]> (uploads s)).

(** The row [r] after [SET photo = f], and the store holding it under [id]. *)
Definition with_photo (f : string) (r : row) : row :=
  Row (name r) (description r) (Some f) (created_at r).

Definition set_row (id : Z) (r : row) (s : store) : store :=
  Store (<[id := r]> (inventory s)) (inventory_id_seq s) (uploads s).

(** The row [r] after [SET name = COALESCE(n, name),
    description = COALESCE(d, description)]. *)
Definition with_text (n d : option string) (r : row) : row :=
  Row (default (name r) n)
      (match d with Some x => Some x | None => description r end)
      (photo r) (created_at r).

Definition drop_row (id : Z) (s : store) : store :=
  Store (delete id (inventory s)) (inventory_id_seq s) (uploads s).

(** The store and the steps of [upload.single], and [req.file.filename]. *)
Definition uploaded (e : env) (file : option part) (s : store) : store :=
  match file with
  | Some p => stored e p s
  | None => s
  end.

Definition upload_steps (e : env) (file : option part) (s : store) : trace :=
  match file with
  | Some p => [(FsWrite (filename e p) (content p), stored e p s)]
  | None => []
  end.

Definition req_file (e : env) (file : option part) : option string :=
  match file with
  | Some p => Some (filename e p)
  | None => None
  end.

(** The store after a successful INSERT of [r], and after one that spent a
    sequence value on a refused row. *)
Definition inserted (r : row) (s : store) : store :=
  Store (<[inventory_id_seq s := r]> (inventory s)) (inventory_id_seq s + 1) (uploads s).

Definition seq_spent (s : store) : store :=
  Store (inventory s) (inventory_id_seq s + 1) (uploads s).

(** The INSERT of POST /register is accepted: the name and the file name fit
    their columns, the sequence can issue a value, and no row has it. *)
Definition insert_accepted (e : env) (nm : string) (file : option part) (s : store) : bool :=
  varchar255 nm && varchar255_opt (req_file e file) &&
  seq_can_issue (inventory_id_seq s) &&
  bool_decide (inventory s !! inventory_id_seq s = None).

(** Invariant I1 on a store: a photo reference that is not null names a file
    of the uploads directory. *)
Definition I1 (s : store) : Prop :=
  forall id r f, inventory s !! id = Some r -> photo r = Some f ->
    is_Some (uploads s !! f).

(** I1 for every record except the one a request addresses. *)
Definition I1_but (o : option Z) (s : store) : Prop :=
  forall id r f, Some id <> o -> inventory s !! id = Some r -> photo r = Some f ->
    is_Some (uploads s !! f).

(** No file is the photo of two records. *)
Definition unshared (s : store) : Prop :=
  forall i j ri rj f,
    inventory s !! i = Some ri -> inventory s !! j = Some rj ->
    photo ri = Some f -> photo rj = Some f -> i = j.

(** The record whose photo a request replaces or removes. *)
Definition target (q : request) : option Z :=
  match q with
  | PutPhoto id _ => Some id
  | DeleteItem id => Some id
  | _ => None
  end.

(** The name multer gives the uploaded file, if the request has one, is new
    to the uploads directory and fits the photo column. *)
Definition upload_ok (e : env) (q : request) (s : store) : Prop :=
  match q with
  | PostRegister _ _ (Some p) | PutPhoto _ (Some p) =>
      uploads s !! filename e p = None /\ varchar255 (filename e p) = true
  | _ => True
  end.

(** Orders of the mutations of one request: every removal of [old] comes
    after the UPDATE that swaps the photo of [id], respectively after the
    DELETE of row [id]. *)
Definition swap_before_reclaim (evs : list event) (id : Z) (old : string) : Prop :=
  forall i, evs !! i = Some (FsUnlink old) ->
    exists j f, (j < i)%nat /\ evs !! j = Some (SqlUpdatePhoto id f).

Definition delete_before_reclaim (evs : list event) (id : Z) (old : string) : Prop :=
  forall i, evs !! i = Some (FsUnlink old) ->
    exists j, (j < i)%nat /\ evs !! j = Some (SqlDelete id).

(** A run of requests, one after the other, and the ids of the records it
    created (the 201 responses), in order. *)
Fixpoint serve (qs : list (env * request)) (s : store) : list (outcome response) :=
  match qs with
  | [] => []
  | (e, q) :: qs' =>
      result_of (handle e q s) :: serve qs' (final_of (handle e q s))
  end.

Definition created_id (o : outcome response) : option Z :=
  match o with
  | Ret (Response st (JsonRecord id _)) => if st =? 201 then Some id else None
  | _ => None
  end.

Definition created_ids (rs : list (outcome response)) : list Z := omap created_id rs.

(** A catalogue used in the examples: one record with a photo on disk. *)
Definition widget : row := Row "Widget" (Some "spare part") (Some "old.jpg") 100.

Definition catalogue : store :=
  Store {[ 1 := widget ]} 2 {[ "old.jpg" := [Byte.xff; Byte.xd8] ]}.

Definition noon : env := Env 5 200.

Definition new_photo : part := Part "new.jpg" [Byte.x89; Byte.x50].

(** A name of [n] letters, for the column limit. *)
Fixpoint letters (n : nat) : string :=
  match n with
  | O => ""
  | S k => String "a"%char (letters k)
  end.

(** ** The listing and the search routes *)

(** Answers of the routes that send a JSON value of their own shape: the
    value with its status, or a plain text with its status. *)
Inductive reply (A : Type) :=
| Json (st : Z) (a : A)
| Plain (st : Z) (msg : string).
Arguments Json {A} st a.
Arguments Plain {A} st msg.

(** [try { ... } catch (err) { res.status(500).send("DB error") }] for these
    routes. *)
Definition catching {A} (m : M (reply A)) : M (reply A) :=
  fun s =>
    match m s with
    | (t, s', Ret r) => (t, s', Ret r)
    | (t, s', Throw) => (t, s', Ret (Plain 500 "DB error"))
    end.

(** One element of the array of GET /inventory:
    [{ id, name, description, photo_url }]. *)
Record view := View {
  view_id : Z;
  view_name : string;
  view_description : option string;
  view_photo_url : option string
}.

Definition to_view (item : Z * row) : view :=
  View (fst item) (name (snd item)) (description (snd item))
       (photo_url (fst item) (photo (snd item))).

(** [ORDER BY id] *)
Definition by_id (a b : Z * row) : Prop := fst a <= fst b.

#[global] Instance by_id_dec a b : Decision (by_id a b).
Proof. unfold by_id. apply _. Defined.

(** [SELECT id, name, description, photo FROM inventory ORDER BY id]:
    [result.rows]. *)
Definition sql_select_all : M (list (Z * row)) :=
  fun s => ([], s, Ret (merge_sort by_id (map_to_list (inventory s)))).

(** [app.get("/inventory", ...)] *)
Definition get_inventory : M (reply (list view)) :=
  catching (
    result <- sql_select_all;;
    ret (Json 200 (map to_view result))).

(** The object of POST /search: [{ id, name, description }]. *)
Record hit := Hit {
  hit_id : Z;
  hit_name : string;
  hit_description : option string
}.

(** [`\nФото: /inventory/${item.id}/photo`] *)
Definition photo_hint (id : Z) : string :=
  String "010"%char ("Фото: /inventory/" +:+ pretty id +:+ "/photo").

(** [response.description || ""] *)
Definition or_empty (v : option string) : string :=
  match or_null v with
  | Some x => x
  | None => ""
  end.

(** [app.post("/search", ...)]; [has_photo] is [req.body.has_photo], compared
    with ["on"] by [===]. *)
Definition post_search (id : Z) (has_photo : option string) : M (reply hit) :=
  catching (
    let hasPhoto := bool_decide (has_photo = Some "on") in
    result <- sql_select id;;
    match result with
    | None => ret (Plain 404 "Not Found")
    | Some item =>
        let response := Hit id (name item) (description item) in
        if hasPhoto && truthy (photo item)
        then ret (Json 200 (Hit id (name item)
                    (Some (or_empty (hit_description response) +:+ photo_hint id))))
        else ret (Json 200 response)
    end).

(** Every id of the table is below the next value of the sequence. *)
Definition ids_below_seq (s : store) : Prop :=
  forall id, is_Some (inventory s !! id) -> id < inventory_id_seq s.

(** The character [c] does not occur in [s]. *)
Fixpoint free_of (c : ascii) (s : string) : bool :=
  match s with
  | EmptyString => true
  | String a s' => negb (Ascii.eqb a c) && free_of c s'
  end.

(** ** Basic facts about the primitives *)

Lemma truthy_filename e p : truthy (Some (filename e p)) = true.
Proof.
  unfold filename. generalize (pretty (date_now e)) as a.
  intros a. destruct a; reflexivity.
Qed.

Lemma store_eta s : Store (inventory s) (inventory_id_seq s) (uploads s) = s.
Proof. destruct s; reflexivity. Qed.

Lemma unlink_if_present_run ph s :
  unlink_if_present ph s =
    (map (fun ev => (ev, after_unlink ph s)) (reclaimed ph (uploads s)),
     after_unlink ph s, Ret tt).
Proof.
  unfold after_unlink.
  destruct ph as [[|c p]|]; simpl; rewrite ?store_eta; try reflexivity.
  unfold bind, existsSync, unlinkSync, effect, ret.
  case_bool_decide as Hf; simpl; [reflexivity|].
  rewrite delete_id, store_eta; [reflexivity|].
  destruct (uploads s !! String c p) eqn:E; [|reflexivity].
  exfalso; apply Hf; eauto.
Qed.

Ltac run :=
  unfold post_register, get_item, put_item, get_photo, put_photo, delete_item,
    upload_single, try_catch, bind, send, ret, effect, sql_select, sql_insert,
    sql_update, sql_update_photo, sql_delete, existsSync, sendFile, throw,
    events_of, visible_of, steps_of, final_of, result_of in *.

(** ** What each handler does, case by case *)

Lemma get_photo_run id s :
  get_photo id s =
    if int4 id then
      match inventory s !! id with
      | None => ([], s, Ret not_found)
      | Some r =>
          match photo r with
          | Some (String c p) =>
              match uploads s !! String c p with
              | Some b => ([], s, Ret (Response 200 (File "image/jpeg" b)))
              | None => ([], s, Ret asset_not_found)
              end
          | _ => ([], s, Ret asset_not_found)
          end
      end
    else ([], s, Ret db_error).
Proof.
  run. destruct (int4 id); [|reflexivity].
  destruct (inventory s !! id) as [r|]; [|reflexivity]. simpl.
  destruct (photo r) as [[|c p]|]; try reflexivity.
  destruct (uploads s !! String c p) as [b|] eqn:Hf; [|reflexivity].
  rewrite bool_decide_eq_true_2 by eauto. cbv beta iota. rewrite Hf. reflexivity.
Qed.

Lemma put_item_run id n d s :
  put_item id n d s =
    if int4 id then
      match inventory s !! id with
      | None => ([], s, Ret not_found)
      | Some r =>
          if varchar255_opt (or_null n) then
            ([(SqlUpdate id, set_row id (with_text (or_null n) (or_null d) r) s)],
             set_row id (with_text (or_null n) (or_null d) r) s,
             Ret (Response 200 (JsonItem (Some
                    (returning id (with_text (or_null n) (or_null d) r))))))
          else ([], s, Ret db_error)
      end
    else ([], s, Ret db_error).
Proof.
  run. destruct (int4 id) eqn:Hid; [|reflexivity].
  destruct (inventory s !! id) as [r|] eqn:Hr; [|reflexivity]. simpl.
  rewrite ?Hid. simpl.
  destruct (varchar255_opt (or_null n)); [|reflexivity].
  rewrite ?Hr. reflexivity.
Qed.

Lemma delete_item_run id s :
  delete_item id s =
    if int4 id then
      match inventory s !! id with
      | None => ([], s, Ret not_found)
      | Some r =>
          (map (fun ev => (ev, after_unlink (photo r) s)) (reclaimed (photo r) (uploads s))
             ++ [(SqlDelete id, drop_row id (after_unlink (photo r) s))],
           drop_row id (after_unlink (photo r) s), Ret deleted_ok)
      end
    else ([], s, Ret db_error).
Proof.
  run. destruct (int4 id) eqn:Hid; [|reflexivity].
  destruct (inventory s !! id) as [r|] eqn:Hr; [|reflexivity]. simpl.
  rewrite unlink_if_present_run. simpl. rewrite ?Hid. simpl. rewrite ?Hr.
  rewrite app_nil_r. reflexivity.
Qed.

Lemma put_photo_run_file e id p s :
  put_photo e id (Some p) s =
    if int4 id then
      match inventory s !! id with
      | None => ([(FsWrite (filename e p) (content p), stored e p s)],
                 stored e p s, Ret not_found)
      | Some r =>
          let s1 := after_unlink (photo r) (stored e p s) in
          let t1 := (FsWrite (filename e p) (content p), stored e p s)
                    :: map (fun ev => (ev, s1))
                         (reclaimed (photo r) (uploads (stored e p s))) in
          if varchar255 (filename e p) then
            (t1 ++ [(SqlUpdatePhoto id (filename e p),
                     set_row id (with_photo (filename e p) r) s1)],
             set_row id (with_photo (filename e p) r) s1,
             Ret (Response 200 (JsonItem (Some
                    (returning id (with_photo (filename e p) r))))))
          else (t1, s1, Ret db_error)
      end
    else ([(FsWrite (filename e p) (content p), stored e p s)],
          stored e p s, Ret db_error).
Proof.
  run. simpl. fold (stored e p s).
  destruct (int4 id) eqn:Hid; [|reflexivity].
  change (inventory (stored e p s)) with (inventory s).
  destruct (inventory s !! id) as [r|] eqn:Hr; [|reflexivity]. simpl.
  rewrite unlink_if_present_run. simpl. rewrite ?Hid. simpl.
  destruct (varchar255 (filename e p)); simpl.
  - rewrite ?Hr. rewrite app_nil_r. reflexivity.
  - rewrite app_nil_r. reflexivity.
Qed.

Lemma put_photo_run_nofile e id s :
  put_photo e id None s =
    if int4 id then
      match inventory s !! id with
      | None => ([], s, Ret not_found)
      | Some r => ([], s, Ret (Response 400 (Text "Bad Request: photo file required")))
      end
    else ([], s, Ret db_error).
Proof.
  run. simpl. destruct (int4 id); [|reflexivity].
  destruct (inventory s !! id); reflexivity.
Qed.

Lemma upload_single_run e file s :
  upload_single e file s = (upload_steps e file s, uploaded e file s, Ret (req_file e file)).
Proof. destruct file; reflexivity. Qed.

Lemma post_register_run e n d file s :
  post_register e n d file s =
    match n with
    | Some (String c nm) =>
        if varchar255 (String c nm) && varchar255_opt (req_file e file)
           && seq_can_issue (inventory_id_seq s) then
          match inventory s !! inventory_id_seq s with
          | Some _ =>
              (upload_steps e file s ++ [(SeqAdvance, seq_spent (uploaded e file s))],
               seq_spent (uploaded e file s), Ret db_error)
          | None =>
              let r := Row (String c nm) (or_null d) (req_file e file) (pg_now e) in
              (upload_steps e file s
                 ++ [(SqlInsert (inventory_id_seq s), inserted r (uploaded e file s))],
               inserted r (uploaded e file s),
               Ret (Response 201 (JsonRecord (inventory_id_seq s) r)))
          end
        else (upload_steps e file s, uploaded e file s, Ret db_error)
    | _ => (upload_steps e file s, uploaded e file s,
            Ret (Response 400 (Text "Bad Request: inventory_name обов'язкове")))
    end.
Proof.
  unfold post_register, bind. rewrite upload_single_run.
  assert (Hi : inventory (uploaded e file s) = inventory s) by (destruct file; reflexivity).
  assert (Hq : inventory_id_seq (uploaded e file s) = inventory_id_seq s)
    by (destruct file; reflexivity).
  destruct n as [[|c nm]|]; unfold try_catch, send, ret, bind, sql_insert; simpl;
    rewrite ?app_nil_r; try reflexivity.
  rewrite Hi, Hq.
  destruct (varchar255 (String c nm) && varchar255_opt (req_file e file)
            && seq_can_issue (inventory_id_seq s)); simpl;
    rewrite ?app_nil_r; [|reflexivity].
  unfold inserted, seq_spent. rewrite Hi, Hq.
  destruct (inventory s !! inventory_id_seq s); simpl; rewrite ?app_nil_r; reflexivity.
Qed.

(** ** Fetching the image *)

(** C4. Fetching the image of an existing record that has no image reference
    fails with the "Photo Not Found" response, and so does fetching when the
    reference is there but the file is not; the response for an id without a
    record is "Not Found": both carry status 404 and they differ in their
    body.  None of these requests changes a store. *)
Theorem get_photo_asset_not_found (s s0 : store) (id id0 : Z) (r : row) :
  int4 id = true -> inventory s !! id = Some r ->
  (photo r = None \/ exists f, photo r = Some f /\ uploads s !! f = None) ->
  int4 id0 = true -> inventory s0 !! id0 = None ->
  get_photo id s = ([], s, Ret asset_not_found) /\
  get_photo id0 s0 = ([], s0, Ret not_found) /\
  payload asset_not_found <> payload not_found.
Proof.
  intros Hid Hr Hph Hid0 Hnone. rewrite !get_photo_run, Hid, Hr, Hid0, Hnone.
  split; [|split; [reflexivity|discriminate]].
  destruct Hph as [-> | (f & -> & Hf)]; [reflexivity|].
  destruct f as [|c p]; [reflexivity|]. rewrite Hf. reflexivity.
Qed.

Lemma get_photo_asset_not_found_witness :
  get_photo 1 (Store {[ 1 := Row "Widget" None None 0 ]} 2 ∅)
    = ([], Store {[ 1 := Row "Widget" None None 0 ]} 2 ∅, Ret asset_not_found) /\
  get_photo 7 (Store ∅ 1 ∅) = ([], Store ∅ 1 ∅, Ret not_found) /\
  payload asset_not_found <> payload not_found.
Proof.
  apply (get_photo_asset_not_found _ _ 1 7 (Row "Widget" None None 0));
    [reflexivity | reflexivity | left; reflexivity | reflexivity | reflexivity].
Defined.

(** ** Deleting twice *)

(** C8. After a delete that answered 200, a second delete of the same id
    answers "Not Found" (404): it performs no mutation and leaves both
    stores as they were. *)
Theorem delete_twice_not_found (s : store) (id : Z) :
  result_of (delete_item id s) = Ret deleted_ok ->
  delete_item id (final_of (delete_item id s))
    = ([], final_of (delete_item id s), Ret not_found).
Proof.
  rewrite (delete_item_run id s).
  destruct (int4 id) eqn:Hid; [|discriminate].
  destruct (inventory s !! id) as [r|] eqn:Hr; [|discriminate].
  intros _. unfold final_of. simpl.
  rewrite delete_item_run, Hid. simpl. rewrite lookup_delete_eq. reflexivity.
Qed.

Lemma delete_twice_not_found_witness :
  delete_item 1 (final_of (delete_item 1
      (Store {[ 1 := Row "Widget" (Some "spare part") None 0 ]} 2 ∅)))
    = ([], final_of (delete_item 1
             (Store {[ 1 := Row "Widget" (Some "spare part") None 0 ]} 2 ∅)),
       Ret not_found).
Proof. apply delete_twice_not_found. reflexivity. Defined.

(** ** Frame of the text update *)

(** C9. PUT /inventory/:id touches nothing but the name and the description
    of the record it addresses: the uploads directory and the id sequence
    are as before, every other record is as before, the addressed record
    keeps its photo and its created_at, and the only mutation it can
    perform is the UPDATE of that row. *)
Theorem put_item_frame (s : store) (id : Z) (n d : option string) :
  uploads (final_of (put_item id n d s)) = uploads s /\
  inventory_id_seq (final_of (put_item id n d s)) = inventory_id_seq s /\
  (forall j, j <> id ->
     inventory (final_of (put_item id n d s)) !! j = inventory s !! j) /\
  (forall r, inventory s !! id = Some r ->
     exists r', inventory (final_of (put_item id n d s)) !! id = Some r' /\
                photo r' = photo r /\ created_at r' = created_at r) /\
  (inventory s !! id = None ->
     inventory (final_of (put_item id n d s)) !! id = None) /\
  (forall ev, ev ∈ events_of (put_item id n d s) -> ev = SqlUpdate id).
Proof.
  rewrite put_item_run. unfold final_of, events_of, steps_of.
  destruct (int4 id), (inventory s !! id) as [r|] eqn:Hr,
    (varchar255_opt (or_null n)); simpl;
    (split; [reflexivity|]); (split; [reflexivity|]);
    (split; [intros j Hj; rewrite ?lookup_insert_ne by auto; reflexivity|]);
    (split; [intros r0 Hr0; rewrite ?lookup_insert_eq; try discriminate;
             try (injection Hr0 as <-); eauto|]);
    (split; [try discriminate; auto|]);
    intros ev Hev; try (inversion Hev; fail);
    apply list_elem_of_singleton in Hev; exact Hev.
Qed.

Lemma put_item_frame_witness :
  exists r', inventory (final_of (put_item 1 (Some "X") None
               (Store {[ 1 := Row "Widget" None (Some "a.jpg") 9 ]} 2 ∅))) !! 1 = Some r' /\
             photo r' = Some "a.jpg" /\ created_at r' = 9.
Proof.
  destruct (put_item_frame (Store {[ 1 := Row "Widget" None (Some "a.jpg") 9 ]} 2 ∅)
              1 (Some "X") None) as (_ & _ & _ & H & _).
  apply (H (Row "Widget" None (Some "a.jpg") 9)). reflexivity.
Defined.

(** ** Failed replacement *)

(** C10. PUT /inventory/:id/photo answers "Not Found" when the id has no
    record and 400 when the record is there but no file was sent; whenever
    it answers 404 or 400 the table and the id sequence are unchanged, no
    file has been removed and every file stored before is still stored;
    and a removal only ever happens when the record exists and a file was
    sent. *)
Theorem put_photo_failure_keeps_state (e : env) (s : store) (id : Z) (file : option part) :
  (int4 id = true -> inventory s !! id = None ->
     result_of (put_photo e id file s) = Ret not_found) /\
  (int4 id = true -> is_Some (inventory s !! id) -> file = None ->
     result_of (put_photo e id file s)
       = Ret (Response 400 (Text "Bad Request: photo file required"))) /\
  (forall resp, result_of (put_photo e id file s) = Ret resp ->
     status resp = 404 \/ status resp = 400 ->
     inventory (final_of (put_photo e id file s)) = inventory s /\
     inventory_id_seq (final_of (put_photo e id file s)) = inventory_id_seq s /\
     (forall f, is_Some (uploads s !! f) ->
        is_Some (uploads (final_of (put_photo e id file s)) !! f)) /\
     (forall f, FsUnlink f ∉ events_of (put_photo e id file s))) /\
  (forall f, FsUnlink f ∈ events_of (put_photo e id file s) ->
     is_Some (inventory s !! id) /\ is_Some file).
Proof.
  split; [|split; [|split]].
  - intros Hid Hnone.
    destruct file; rewrite ?put_photo_run_file, ?put_photo_run_nofile, Hid, Hnone;
      reflexivity.
  - intros Hid [r Hr] ->. rewrite put_photo_run_nofile, Hid, Hr. reflexivity.
  - intros resp. destruct file as [p|];
      rewrite ?put_photo_run_file, ?put_photo_run_nofile;
      unfold result_of, final_of, events_of, steps_of;
      destruct (int4 id), (inventory s !! id) as [r|]; simpl;
      try (destruct (varchar255 (filename e p)); simpl);
      intros [= <-] [Hst|Hst]; try discriminate;
      repeat split; auto;
      try (intros f Hf; inversion Hf; fail);
      try (intros f Hf; apply list_elem_of_singleton in Hf; discriminate).
    all: intros f Hf; apply lookup_insert_is_Some'; right; exact Hf.
  - intros f. destruct file as [p|];
      rewrite ?put_photo_run_file, ?put_photo_run_nofile;
      unfold result_of, final_of, events_of, steps_of;
      destruct (int4 id), (inventory s !! id) as [r|]; simpl;
      intros Hf; try (inversion Hf; fail);
      try (apply list_elem_of_singleton in Hf; discriminate).
    split; eauto.
Qed.

Lemma put_photo_failure_keeps_state_witness :
  result_of (put_photo (Env 5 0) 7 (Some (Part "new.jpg" []))
              (Store {[ 1 := Row "Widget" None (Some "a.jpg") 9 ]} 2 {[ "a.jpg" := [] ]}))
    = Ret not_found /\
  inventory (final_of (put_photo (Env 5 0) 7 (Some (Part "new.jpg" []))
              (Store {[ 1 := Row "Widget" None (Some "a.jpg") 9 ]} 2 {[ "a.jpg" := [] ]})))
    = {[ 1 := Row "Widget" None (Some "a.jpg") 9 ]}.
Proof.
  destruct (put_photo_failure_keeps_state (Env 5 0)
              (Store {[ 1 := Row "Widget" None (Some "a.jpg") 9 ]} 2 {[ "a.jpg" := [] ]})
              7 (Some (Part "new.jpg" []))) as (H1 & _ & H3 & _).
  split; [apply H1; reflexivity|].
  apply (H3 not_found); [apply H1; reflexivity | left; reflexivity].
Defined.

(** ** Order of the steps of a replacement *)

(** C1, as stated, fails: replacing the photo of the widget removes
    "old.jpg" before the row is updated, so the removal does not come after
    the swap, and a reader in between sees the row still naming the removed
    file. *)
Lemma replace_unlinks_before_swap :
  events_of (put_photo noon 1 (Some new_photo) catalogue)
    = [FsWrite "5_new.jpg" [Byte.x89; Byte.x50]; FsUnlink "old.jpg";
       SqlUpdatePhoto 1 "5_new.jpg"] /\
  ~ swap_before_reclaim (events_of (put_photo noon 1 (Some new_photo) catalogue)) 1 "old.jpg" /\
  exists s', visible_of catalogue (put_photo noon 1 (Some new_photo) catalogue) !! 2%nat = Some s' /\
    inventory s' !! 1 = Some widget /\ photo widget = Some "old.jpg" /\
    uploads s' !! "old.jpg" = None.
Proof.
  split; [reflexivity|]. split.
  - intros H. destruct (H 1%nat) as (j & f & Hj & Hev); [reflexivity|].
    destruct j as [|j]; [discriminate Hev | lia].
  - eexists. split; [reflexivity|]. repeat split.
Qed.

(** C1, amended. When the record exists, a file is sent and its stored name
    fits the photo column, the replacement performs, in this order: the
    write of the new file, the removal of the previous file if the row
    names one that is there, and the UPDATE that sets the row's photo to
    the new name.  It answers 200 with the updated row; afterwards the row
    names the new file and the previous file is gone. *)
Theorem put_photo_order (e : env) (s : store) (id : Z) (p : part) (r : row) :
  int4 id = true -> inventory s !! id = Some r ->
  varchar255 (filename e p) = true ->
  events_of (put_photo e id (Some p) s)
    = FsWrite (filename e p) (content p)
      :: reclaimed (photo r) (<[filename e p := content p]> (uploads s))
      ++ [SqlUpdatePhoto id (filename e p)] /\
  result_of (put_photo e id (Some p) s)
    = Ret (Response 200 (JsonItem (Some (returning id (with_photo (filename e p) r))))) /\
  inventory (final_of (put_photo e id (Some p) s))
    = <[id := with_photo (filename e p) r]> (inventory s) /\
  uploads (final_of (put_photo e id (Some p) s))
    = without (photo r) (<[filename e p := content p]> (uploads s)).
Proof.
  intros Hid Hr Hfit. rewrite put_photo_run_file, Hid, Hr. simpl. rewrite Hfit.
  unfold events_of, result_of, final_of, steps_of. simpl.
  repeat split. f_equal. rewrite map_app, map_map. simpl. rewrite map_id. reflexivity.
Qed.

Lemma put_photo_order_witness :
  events_of (put_photo noon 1 (Some new_photo) catalogue)
    = FsWrite (filename noon new_photo) (content new_photo)
      :: reclaimed (photo widget) (<[filename noon new_photo := content new_photo]> (uploads catalogue))
      ++ [SqlUpdatePhoto 1 (filename noon new_photo)].
Proof.
  apply (put_photo_order noon catalogue 1 new_photo widget); reflexivity.
Defined.

(** ** Order of the steps of a delete *)

(** C3, as stated, fails: deleting the widget removes "old.jpg" first and
    the row afterwards; in between the row is still there and names the
    removed file. *)
Lemma delete_unlinks_before_row :
  events_of (delete_item 1 catalogue) = [FsUnlink "old.jpg"; SqlDelete 1] /\
  ~ delete_before_reclaim (events_of (delete_item 1 catalogue)) 1 "old.jpg" /\
  exists s', visible_of catalogue (delete_item 1 catalogue) !! 1%nat = Some s' /\
    inventory s' !! 1 = Some widget /\ photo widget = Some "old.jpg" /\
    uploads s' !! "old.jpg" = None.
Proof.
  split; [reflexivity|]. split.
  - intros H. destruct (H 0%nat) as (j & Hj & Hev); [reflexivity|]. lia.
  - eexists. split; [reflexivity|]. repeat split.
Qed.

(** C3, amended. Deleting an existing record first removes its photo file,
    if the row names one that is there, and then deletes the row; it
    answers 200, and afterwards the row is gone, the file is gone and every
    other row is as before. *)
Theorem delete_item_order (s : store) (id : Z) (r : row) :
  int4 id = true -> inventory s !! id = Some r ->
  events_of (delete_item id s) = reclaimed (photo r) (uploads s) ++ [SqlDelete id] /\
  result_of (delete_item id s) = Ret deleted_ok /\
  inventory (final_of (delete_item id s)) = delete id (inventory s) /\
  uploads (final_of (delete_item id s)) = without (photo r) (uploads s).
Proof.
  intros Hid Hr. rewrite delete_item_run, Hid, Hr.
  unfold events_of, result_of, final_of, steps_of. simpl.
  repeat split. rewrite map_app, map_map. simpl. rewrite map_id. reflexivity.
Qed.

Lemma delete_item_order_witness :
  events_of (delete_item 1 catalogue)
    = reclaimed (photo widget) (uploads catalogue) ++ [SqlDelete 1].
Proof. apply (delete_item_order catalogue 1 widget); reflexivity. Defined.

(** ** Partial update of the text fields *)

(** C5, as stated, fails: an empty string supplied as description does not
    replace the stored description. *)
Lemma put_item_empty_string_kept :
  result_of (put_item 1 (Some "X") (Some "") catalogue)
    = Ret (Response 200 (JsonItem (Some (Item 1 "X" (Some "spare part") (Some "old.jpg"))))) /\
  inventory (final_of (put_item 1 (Some "X") (Some "") catalogue)) !! 1
    = Some (Row "X" (Some "spare part") (Some "old.jpg") 100) /\
  Some "spare part" <> Some "".
Proof. repeat split. discriminate. Qed.

(** C5, amended. For an existing record, when the supplied name (if any)
    fits the name column, the update answers 200 and each field supplied
    as a non-empty string replaces the stored value, while a field that is
    omitted or supplied as the empty string keeps its stored value; the
    photo and created_at are kept. *)
Theorem put_item_partial_update (s : store) (id : Z) (n d : option string) (r : row) :
  int4 id = true -> inventory s !! id = Some r ->
  varchar255_opt (or_null n) = true ->
  exists r',
    result_of (put_item id n d s) = Ret (Response 200 (JsonItem (Some (returning id r')))) /\
    inventory (final_of (put_item id n d s)) !! id = Some r' /\
    name r' = match n with Some (String c x) => String c x | _ => name r end /\
    description r' = match d with
                     | Some (String c x) => Some (String c x)
                     | _ => description r
                     end /\
    photo r' = photo r /\ created_at r' = created_at r.
Proof.
  intros Hid Hr Hfit. rewrite put_item_run, Hid, Hr, Hfit.
  exists (with_text (or_null n) (or_null d) r).
  unfold result_of, final_of. simpl. rewrite lookup_insert_eq.
  repeat split.
  - destruct n as [[|c x]|]; reflexivity.
  - destruct d as [[|c x]|]; reflexivity.
Qed.

Lemma put_item_partial_update_witness :
  exists r',
    result_of (put_item 1 (Some "X") None catalogue)
      = Ret (Response 200 (JsonItem (Some (returning 1 r')))) /\
    inventory (final_of (put_item 1 (Some "X") None catalogue)) !! 1 = Some r' /\
    name r' = "X" /\ description r' = Some "spare part" /\
    photo r' = Some "old.jpg" /\ created_at r' = 100.
Proof.
  apply (put_item_partial_update catalogue 1 (Some "X") None widget); reflexivity.
Defined.

(** ** Creating a record *)

Lemma seq_can_issue_int4 z : seq_can_issue z = true -> int4 z = true.
Proof. unfold seq_can_issue, int4. intros H. apply andb_true_iff in H. lia. Qed.

Lemma get_item_run id s :
  get_item id s =
    if int4 id then
      match inventory s !! id with
      | None => ([], s, Ret not_found)
      | Some r => ([], s, Ret (Response 200
                    (JsonView id (name r) (description r) (photo_url id (photo r)))))
      end
    else ([], s, Ret db_error).
Proof.
  run. destruct (int4 id); [|reflexivity]. destruct (inventory s !! id); reflexivity.
Qed.

(** The sequence never goes back, and a 201 response carries the value the
    sequence had, which is then passed. *)
Lemma handle_seq e q s :
  inventory_id_seq s <= inventory_id_seq (final_of (handle e q s)) /\
  forall id, created_id (result_of (handle e q s)) = Some id ->
    id = inventory_id_seq s /\ inventory_id_seq (final_of (handle e q s)) = id + 1.
Proof.
  destruct q as [n d file|id|id n d|id|id file|id]; simpl.
  - rewrite post_register_run. unfold final_of, result_of.
    assert (Hq : inventory_id_seq (uploaded e file s) = inventory_id_seq s)
      by (destruct file; reflexivity).
    destruct n as [[|c nm]|]; simpl; rewrite ?Hq; try (split; [lia|discriminate]).
    destruct (varchar255 (String c nm) && varchar255_opt (req_file e file)
              && seq_can_issue (inventory_id_seq s)); simpl; rewrite ?Hq;
      [|split; [lia|discriminate]].
    destruct (inventory s !! inventory_id_seq s); simpl; rewrite ?Hq;
      [split; [lia|discriminate]|].
    split; [lia|]. intros id [= <-]. split; reflexivity.
  - rewrite get_item_run. unfold final_of, result_of.
    destruct (int4 id), (inventory s !! id); simpl; split; (lia || discriminate).
  - rewrite put_item_run. unfold final_of, result_of.
    destruct (int4 id), (inventory s !! id), (varchar255_opt (or_null n)); simpl;
      split; (lia || discriminate).
  - rewrite get_photo_run. unfold final_of, result_of.
    destruct (int4 id); [|simpl; split; (lia || discriminate)].
    destruct (inventory s !! id) as [r|]; [|simpl; split; (lia || discriminate)].
    destruct (photo r) as [[|c p]|]; try (simpl; split; (lia || discriminate)).
    destruct (uploads s !! String c p); simpl; split; (lia || discriminate).
  - destruct file as [p|]; rewrite ?put_photo_run_file, ?put_photo_run_nofile;
      unfold final_of, result_of;
      destruct (int4 id), (inventory s !! id); simpl;
      try destruct (varchar255 (filename e p)); simpl;
      split; (lia || discriminate).
  - rewrite delete_item_run. unfold final_of, result_of.
    destruct (int4 id), (inventory s !! id); simpl; split; (lia || discriminate).
Qed.

Lemma created_ids_from qs : forall s,
  Forall (fun i => inventory_id_seq s <= i) (created_ids (serve qs s)) /\
  StronglySorted Z.lt (created_ids (serve qs s)).
Proof.
  induction qs as [|[e q] qs IH]; intros s; simpl.
  - split; constructor.
  - destruct (handle_seq e q s) as [Hle Hid].
    destruct (IH (final_of (handle e q s))) as [Hall Hsorted].
    unfold created_ids in *. simpl.
    destruct (created_id (result_of (handle e q s))) as [id|] eqn:Hc; simpl.
    + destruct (Hid id eq_refl) as [-> Hnext]. split.
      * constructor; [lia|]. eapply Forall_impl; [exact Hall|]. simpl. intros; lia.
      * constructor; [exact Hsorted|].
        eapply Forall_impl; [exact Hall|]. simpl. intros; lia.
    + split; [|exact Hsorted].
      eapply Forall_impl; [exact Hall|]. simpl. intros; lia.
Qed.

(** C7, as stated, fails: a name of 256 letters is neither empty nor
    missing, yet the INSERT is refused by the name column and the answer is
    500, not 201. *)
Lemma register_long_name_500 :
  truthy (Some (letters 256)) = true /\
  String.length (letters 256) = 256%nat /\
  result_of (post_register noon (Some (letters 256)) None None catalogue) = Ret db_error /\
  status db_error <> 201.
Proof. vm_compute. repeat split. discriminate. Qed.

(** C7, amended. POST /register answers 400 and creates nothing when the
    name is empty or missing.  Otherwise, when the INSERT is accepted (the
    name and the stored file name have at most 255 characters and the id
    sequence yields a value that no row has), it answers 201 with the
    created record, whose id is the value of the sequence, held by no row
    before, and whose created_at is the database clock.  Along any run of
    requests the ids of the created records strictly increase, starting
    from the value of the sequence at the beginning of the run: no id is
    issued twice. *)
Theorem post_register_outcome :
  (forall e s n d file, truthy n = false ->
     result_of (post_register e n d file s)
       = Ret (Response 400 (Text "Bad Request: inventory_name обов'язкове")) /\
     inventory (final_of (post_register e n d file s)) = inventory s /\
     inventory_id_seq (final_of (post_register e n d file s)) = inventory_id_seq s) /\
  (forall e s nm d file, truthy (Some nm) = true ->
     insert_accepted e nm file s = true ->
     result_of (post_register e (Some nm) d file s)
       = Ret (Response 201 (JsonRecord (inventory_id_seq s)
                (Row nm (or_null d) (req_file e file) (pg_now e)))) /\
     inventory s !! inventory_id_seq s = None /\
     inventory (final_of (post_register e (Some nm) d file s))
       = <[inventory_id_seq s := Row nm (or_null d) (req_file e file) (pg_now e)]>
           (inventory s) /\
     inventory_id_seq (final_of (post_register e (Some nm) d file s))
       = inventory_id_seq s + 1) /\
  (forall qs s,
     StronglySorted Z.lt (created_ids (serve qs s)) /\
     Forall (fun i => inventory_id_seq s <= i) (created_ids (serve qs s))).
Proof.
  split; [|split].
  - intros e s n d file Hn. rewrite post_register_run. unfold result_of, final_of.
    destruct n as [[|c nm]|]; try discriminate; simpl; destruct file; repeat split.
  - intros e s nm d file Hn Hacc. rewrite post_register_run. unfold result_of, final_of.
    destruct nm as [|c nm]; [discriminate|].
    unfold insert_accepted in Hacc. apply andb_true_iff in Hacc as [Hacc Hfree].
    rewrite Hacc. apply bool_decide_eq_true_1 in Hfree. rewrite Hfree. simpl.
    destruct file; repeat split.
  - intros qs s. destruct (created_ids_from qs s). split; assumption.
Qed.

Lemma post_register_outcome_witness :
  result_of (post_register noon (Some "Bolt") (Some "") (Some new_photo) catalogue)
    = Ret (Response 201 (JsonRecord 2 (Row "Bolt" None (Some "5_new.jpg") 200))).
Proof.
  destruct post_register_outcome as (_ & H & _).
  apply (H noon catalogue "Bolt" (Some "") (Some new_photo)); reflexivity.
Defined.

(** ** Round trip of an uploaded image *)

(** C6. When a creation with an attached image has answered 201 with a
    record, fetching the photo of the returned id answers 200 with exactly
    the bytes that were uploaded (and changes nothing). *)
Theorem register_then_fetch (e : env) (s : store) (n d : option string) (p : part)
    (id : Z) (r : row) :
  result_of (post_register e n d (Some p) s) = Ret (Response 201 (JsonRecord id r)) ->
  get_photo id (final_of (post_register e n d (Some p) s))
    = ([], final_of (post_register e n d (Some p) s),
       Ret (Response 200 (File "image/jpeg" (content p)))).
Proof.
  rewrite post_register_run. unfold result_of, final_of.
  destruct n as [[|c nm]|]; try discriminate.
  destruct (varchar255 (String c nm) && varchar255_opt (req_file e (Some p))
            && seq_can_issue (inventory_id_seq s)) eqn:Hacc; [|discriminate].
  destruct (inventory s !! inventory_id_seq s); [discriminate|].
  simpl. intros [= <- <-].
  apply andb_true_iff in Hacc as [_ Hseq]. apply seq_can_issue_int4 in Hseq.
  rewrite get_photo_run, Hseq. simpl. rewrite lookup_insert_eq. simpl.
  pose proof (truthy_filename e p) as Ht.
  destruct (filename e p) as [|c' f] eqn:Hf; [discriminate|].
  rewrite lookup_insert_eq. reflexivity.
Qed.

Lemma register_then_fetch_witness :
  get_photo 2 (final_of (post_register noon (Some "Bolt") None (Some new_photo) catalogue))
    = ([], final_of (post_register noon (Some "Bolt") None (Some new_photo) catalogue),
       Ret (Response 200 (File "image/jpeg" [Byte.x89; Byte.x50]))).
Proof.
  apply (register_then_fetch noon catalogue (Some "Bolt") None new_photo 2
           (Row "Bolt" None (Some "5_new.jpg") 200)).
  reflexivity.
Defined.

(** ** Invariant I1 across the operations *)


Lemma I1_weaken o s : I1 s -> I1_but o s.
Proof. intros H id r f _. apply H. Qed.

Lemma I1_stored e p s : I1 s -> I1 (stored e p s).
Proof.
  intros H id r f Hr Hp. simpl. apply lookup_insert_is_Some'. right.
  exact (H id r f Hr Hp).
Qed.

Lemma I1_uploaded e file s : I1 s -> I1 (uploaded e file s).
Proof. destruct file; [apply I1_stored | trivial]. Qed.

Lemma unshared_uploaded e file s : unshared s -> unshared (uploaded e file s).
Proof. destruct file; trivial. Qed.

Lemma states_const (P : store -> Prop) (s1 : store) (evs : list event) :
  P s1 -> Forall P (map snd (map (fun ev => (ev, s1)) evs)).
Proof. intros H. induction evs; simpl; constructor; auto. Qed.

(** After the removal of the photo of [id], the other records still have
    their files: none of them shares the removed one. *)
Lemma I1_but_after_unlink id r s :
  I1 s -> unshared s -> inventory s !! id = Some r ->
  I1_but (Some id) (after_unlink (photo r) s).
Proof.
  intros HI HU Hr j rj f Hj Hrj Hf. simpl in *.
  pose proof (HI j rj f Hrj Hf) as Hex.
  destruct (photo r) as [[|c p]|] eqn:Hp; simpl; try exact Hex.
  rewrite lookup_delete_ne; [exact Hex|].
  intros <-. apply Hj. f_equal. exact (HU j id rj r _ Hrj Hr Hf Hp).
Qed.

Lemma I1_but_set_row id r' s : I1_but (Some id) s -> I1_but (Some id) (set_row id r' s).
Proof.
  intros H j rj f Hj Hrj Hf. simpl in *.
  rewrite lookup_insert_ne in Hrj by congruence. exact (H j rj f Hj Hrj Hf).
Qed.

Lemma I1_drop_row id s : I1_but (Some id) s -> I1 (drop_row id s).
Proof.
  intros H j rj f Hrj Hf. simpl in *.
  apply lookup_delete_Some in Hrj as [Hne Hrj].
  apply (H j rj f); [congruence | exact Hrj | exact Hf].
Qed.

Lemma I1_but_drop_row id s : I1_but (Some id) s -> I1_but (Some id) (drop_row id s).
Proof. intros H. apply I1_weaken, I1_drop_row, H. Qed.

Lemma unshared_drop_row id s : unshared s -> unshared (drop_row id s).
Proof.
  intros H i j ri rj f Hi Hj. simpl in *.
  apply lookup_delete_Some in Hi as [_ Hi]. apply lookup_delete_Some in Hj as [_ Hj].
  exact (H i j ri rj f Hi Hj).
Qed.

Lemma unshared_after_unlink ph s : unshared s -> unshared (after_unlink ph s).
Proof. trivial. Qed.

(** A row whose photo is kept can be rewritten freely. *)
Lemma I1_set_row_kept id r r' s :
  inventory s !! id = Some r -> photo r' = photo r -> I1 s -> I1 (set_row id r' s).
Proof.
  intros Hr Hp H j rj f Hrj Hf. simpl in *.
  apply lookup_insert_Some in Hrj as [[<- <-] | [Hne Hrj]].
  - apply (H id r f Hr). congruence.
  - exact (H j rj f Hrj Hf).
Qed.

Lemma unshared_set_row_kept id r r' s :
  inventory s !! id = Some r -> photo r' = photo r -> unshared s ->
  unshared (set_row id r' s).
Proof.
  intros Hr Hp H i j ri rj f Hi Hj Hfi Hfj. simpl in *.
  apply lookup_insert_Some in Hi as [[<- <-] | [Hni Hi]];
    apply lookup_insert_Some in Hj as [[<- <-] | [Hnj Hj]]; try reflexivity.
  - apply (H id j r rj f Hr Hj); congruence.
  - apply (H i id ri r f Hi Hr); congruence.
  - exact (H i j ri rj f Hi Hj Hfi Hfj).
Qed.

(** A row whose photo, if any, is on disk can replace the row of [id]. *)
Lemma I1_set_row_new id r' s :
  (forall f, photo r' = Some f -> is_Some (uploads s !! f)) ->
  I1_but (Some id) s -> I1 (set_row id r' s).
Proof.
  intros Hex H j rj g Hrj Hg. simpl in *.
  apply lookup_insert_Some in Hrj as [[<- <-] | [Hne Hrj]].
  - exact (Hex g Hg).
  - apply (H j rj g); [congruence | exact Hrj | exact Hg].
Qed.

Lemma I1_same s s' :
  inventory s' = inventory s -> uploads s' = uploads s -> I1 s -> I1 s'.
Proof. unfold I1. intros -> ->. trivial. Qed.

Lemma unshared_same s s' : inventory s' = inventory s -> unshared s -> unshared s'.
Proof. unfold unshared. intros ->. trivial. Qed.

Lemma unshared_set_row_new id r' s :
  (forall j rj f, inventory s !! j = Some rj -> photo rj = Some f -> photo r' <> Some f) ->
  unshared s -> unshared (set_row id r' s).
Proof.
  intros Hnew H i j ri rj f Hi Hj Hfi Hfj. simpl in *.
  apply lookup_insert_Some in Hi as [[<- <-] | [Hni Hi]];
    apply lookup_insert_Some in Hj as [[<- <-] | [Hnj Hj]]; try reflexivity.
  - exfalso. exact (Hnew j rj f Hj Hfj Hfi).
  - exfalso. exact (Hnew i ri f Hi Hfi Hfj).
  - exact (H i j ri rj f Hi Hj Hfi Hfj).
Qed.

Lemma I1_upload_steps e file s :
  I1 s -> Forall I1 (map snd (upload_steps e file s)).
Proof.
  intros H. destruct file; simpl; constructor; [apply I1_stored, H | constructor].
Qed.

Lemma post_register_I1 e n d file s :
  I1 s -> unshared s -> upload_ok e (PostRegister n d file) s ->
  Forall I1 (visible_of s (post_register e n d file s)) /\
  I1 (final_of (post_register e n d file s)) /\
  unshared (final_of (post_register e n d file s)).
Proof.
  intros HI HU Hok. rewrite post_register_run.
  unfold visible_of, final_of, steps_of.
  pose proof (I1_upload_steps e file s HI) as Hup.
  pose proof (I1_uploaded e file s HI) as HI0.
  pose proof (unshared_uploaded e file s HU) as HU0.
  assert (Hspent : I1 (seq_spent (uploaded e file s)) /\
                   unshared (seq_spent (uploaded e file s))).
  { split; [eapply I1_same | eapply unshared_same]; eauto; reflexivity. }
  destruct n as [[|c nm]|]; simpl; try (split; [constructor|]; auto; fail).
  destruct (varchar255 (String c nm) && varchar255_opt (req_file e file)
            && seq_can_issue (inventory_id_seq s)); simpl;
    [|split; [constructor|]; auto].
  destruct (inventory s !! inventory_id_seq s) eqn:Hfree; simpl;
    rewrite map_app, Forall_cons, Forall_app; simpl.
  { destruct Hspent. repeat split; auto. }
  set (r := Row (String c nm) (or_null d) (req_file e file) (pg_now e)).
  assert (HI1 : I1 (inserted r (uploaded e file s))).
  { apply (I1_same (set_row (inventory_id_seq (uploaded e file s)) r (uploaded e file s)));
      try reflexivity.
    apply I1_set_row_new; [|apply I1_weaken, HI0].
    intros f Hf. destruct file as [p|]; [|discriminate]. simpl in *.
    injection Hf as <-. rewrite lookup_insert_eq. eauto. }
  assert (HU1 : unshared (inserted r (uploaded e file s))).
  { apply (unshared_same (set_row (inventory_id_seq (uploaded e file s)) r (uploaded e file s)));
      try reflexivity.
    apply unshared_set_row_new; [|exact HU0].
    intros j rj f Hj Hf Hr. destruct file as [p|]; [|discriminate]. simpl in *.
    injection Hr as <-. destruct Hok as [Hfresh _].
    destruct (HI j rj _ Hj Hf) as [b Hb]. congruence. }
  repeat split; auto.
Qed.

Lemma put_item_I1 id n d s :
  I1 s -> unshared s ->
  Forall I1 (visible_of s (put_item id n d s)) /\
  I1 (final_of (put_item id n d s)) /\ unshared (final_of (put_item id n d s)).
Proof.
  intros HI HU. rewrite put_item_run. unfold visible_of, final_of, steps_of.
  destruct (int4 id), (inventory s !! id) as [r|] eqn:Hr,
    (varchar255_opt (or_null n)); simpl;
    try (split; [repeat constructor|]; auto; fail).
  assert (I1 (set_row id (with_text (or_null n) (or_null d) r) s))
    by (eapply I1_set_row_kept; eauto).
  assert (unshared (set_row id (with_text (or_null n) (or_null d) r) s))
    by (eapply unshared_set_row_kept; eauto).
  split; [repeat constructor|]; auto.
Qed.

Lemma delete_item_I1 id s :
  I1 s -> unshared s ->
  Forall (I1_but (Some id)) (visible_of s (delete_item id s)) /\
  I1 (final_of (delete_item id s)) /\ unshared (final_of (delete_item id s)).
Proof.
  intros HI HU. rewrite delete_item_run. unfold visible_of, final_of, steps_of.
  destruct (int4 id), (inventory s !! id) as [r|] eqn:Hr; simpl;
    try (split; [repeat constructor; apply I1_weaken|]; auto; fail).
  pose proof (I1_but_after_unlink id r s HI HU Hr) as H1.
  rewrite map_app, Forall_cons, Forall_app. simpl.
  repeat split.
  - apply I1_weaken, HI.
  - apply states_const, H1.
  - repeat constructor. apply I1_but_drop_row, H1.
  - apply I1_drop_row, H1.
  - apply unshared_drop_row, unshared_after_unlink, HU.
Qed.

Lemma put_photo_I1 e id file s :
  I1 s -> unshared s -> upload_ok e (PutPhoto id file) s ->
  Forall (I1_but (Some id)) (visible_of s (put_photo e id file s)) /\
  I1 (final_of (put_photo e id file s)) /\
  unshared (final_of (put_photo e id file s)).
Proof.
  intros HI HU Hok. destruct file as [p|].
  2:{ rewrite put_photo_run_nofile. unfold visible_of, final_of, steps_of.
      destruct (int4 id), (inventory s !! id); simpl;
        (split; [repeat constructor; apply I1_weaken|]; auto). }
  destruct Hok as [Hfresh Hfit].
  rewrite put_photo_run_file. unfold visible_of, final_of, steps_of.
  pose proof (I1_stored e p s HI) as HI0.
  destruct (int4 id), (inventory s !! id) as [r|] eqn:Hr; simpl;
    try (split; [repeat constructor; apply I1_weaken|]; auto; fail).
  rewrite Hfit. simpl.
  assert (Hr0 : inventory (stored e p s) !! id = Some r) by exact Hr.
  pose proof (I1_but_after_unlink id r (stored e p s) HI0 HU Hr0) as H1.
  set (s1 := after_unlink (photo r) (stored e p s)) in *.
  assert (Hnew : is_Some (uploads s1 !! filename e p)).
  { subst s1. simpl. destruct (photo r) as [[|c o]|] eqn:Hp; simpl;
      try (rewrite lookup_insert_eq; eauto; fail).
    rewrite lookup_delete_ne, lookup_insert_eq; eauto.
    intros Heq. destruct (HI id r _ Hr Hp) as [b Hb]. congruence. }
  rewrite map_app, !Forall_cons, Forall_app. simpl.
  repeat split.
  - apply I1_weaken, HI.
  - apply I1_weaken, HI0.
  - apply states_const, H1.
  - repeat constructor. apply I1_but_set_row, H1.
  - apply I1_set_row_new; [|exact H1]. simpl. intros f [= <-]. exact Hnew.
  - apply unshared_set_row_new; [|exact HU].
    intros j rj f Hj Hf. simpl. intros [= <-].
    destruct (HI j rj _ Hj Hf) as [b Hb]. congruence.
Qed.


(** C2, as stated, fails: the catalogue satisfies I1, yet both deleting the
    widget and replacing its photo pass through a state in which the row
    names a file that is not in the uploads directory. *)
Lemma dangling_reference_visible :
  I1 catalogue /\
  ~ Forall I1 (visible_of catalogue (handle noon (DeleteItem 1) catalogue)) /\
  ~ Forall I1 (visible_of catalogue (handle noon (PutPhoto 1 (Some new_photo)) catalogue)).
Proof.
  split; [|split].
  - intros id r f Hr Hf. unfold catalogue in Hr. simpl in Hr.
    apply lookup_singleton_Some in Hr as [<- <-].
    injection Hf as <-. eexists. reflexivity.
  - intros H. eapply (Forall_lookup_1 _ _ 1%nat) in H; [|reflexivity].
    destruct (H 1 widget "old.jpg" eq_refl eq_refl) as [b Hb]. discriminate Hb.
  - intros H. eapply (Forall_lookup_1 _ _ 2%nat) in H; [|reflexivity].
    destruct (H 1 widget "old.jpg" eq_refl eq_refl) as [b Hb]. discriminate Hb.
Qed.

(** C2, amended. Start from a store in which I1 holds and no file is the
    photo of two records, and let the name multer gives an uploaded file be
    new to the uploads directory (and fit the photo column when it replaces
    a photo).  Then in every state a reader can observe during a request,
    I1 holds for every record other than the one whose photo the request
    replaces or whose row it deletes (during a create, a text update and a
    read: for every record), and once the request has completed I1 holds
    for every record again, still with no file shared. *)
Theorem I1_restored (e : env) (q : request) (s : store) :
  I1 s -> unshared s -> upload_ok e q s ->
  Forall (I1_but (target q)) (visible_of s (handle e q s)) /\
  I1 (final_of (handle e q s)) /\ unshared (final_of (handle e q s)).
Proof.
  intros HI HU Hok. destruct q as [n d file|id|id n d|id|id file|id]; simpl.
  - destruct (post_register_I1 e n d file s HI HU Hok) as (Hv & Hf & Hu).
    repeat split; auto. eapply Forall_impl; [exact Hv|]. intros x. apply I1_weaken.
  - rewrite get_item_run. unfold visible_of, final_of, steps_of.
    destruct (int4 id), (inventory s !! id); simpl;
      (split; [repeat constructor; apply I1_weaken|]; auto).
  - destruct (put_item_I1 id n d s HI HU) as (Hv & Hf & Hu).
    repeat split; auto. eapply Forall_impl; [exact Hv|]. intros x. apply I1_weaken.
  - rewrite get_photo_run. unfold visible_of, final_of, steps_of.
    destruct (int4 id); [|simpl; split; [repeat constructor; apply I1_weaken|]; auto].
    destruct (inventory s !! id) as [r|];
      [|simpl; split; [repeat constructor; apply I1_weaken|]; auto].
    destruct (photo r) as [[|c p]|];
      try (simpl; split; [repeat constructor; apply I1_weaken|]; auto; fail).
    destruct (uploads s !! String c p); simpl;
      (split; [repeat constructor; apply I1_weaken|]; auto).
  - apply put_photo_I1; assumption.
  - apply delete_item_I1; assumption.
Qed.

Lemma catalogue_unshared : unshared catalogue.
Proof.
  intros i j ri rj f Hi Hj _ _. unfold catalogue in Hi, Hj. simpl in Hi, Hj.
  apply lookup_singleton_Some in Hi as [<- _].
  apply lookup_singleton_Some in Hj as [<- _]. reflexivity.
Qed.

Lemma I1_restored_witness :
  Forall (I1_but (Some 1))
    (visible_of catalogue (handle noon (PutPhoto 1 (Some new_photo)) catalogue)) /\
  I1 (final_of (handle noon (PutPhoto 1 (Some new_photo)) catalogue)) /\
  unshared (final_of (handle noon (PutPhoto 1 (Some new_photo)) catalogue)).
Proof.
  apply (I1_restored noon (PutPhoto 1 (Some new_photo)) catalogue).
  - intros id r f Hr Hf. unfold catalogue in Hr. simpl in Hr.
    apply lookup_singleton_Some in Hr as [<- <-].
    injection Hf as <-. eexists. reflexivity.
  - exact catalogue_unshared.
  - split; reflexivity.
Defined.


(** The two assumptions on the starting store and on the uploaded name
    cannot be dropped.  When two rows name the same file, deleting one of
    them leaves the other with a reference to a missing file. *)
Example shared_photo_dangles :
  ~ I1 (final_of (handle noon (DeleteItem 1)
          (Store {[ 1 := widget; 2 := widget ]} 3 {[ "old.jpg" := [] ]}))).
Proof.
  intros H. destruct (H 2 widget "old.jpg" eq_refl eq_refl) as [b Hb]. discriminate Hb.
Qed.

(** When multer gives the new file the name the row already has, the
    handler removes the file it has just received and the row is left with
    a reference to a missing file. *)
Example colliding_name_dangles :
  ~ I1 (final_of (handle noon (PutPhoto 1 (Some new_photo))
          (Store {[ 1 := Row "Widget" None (Some "5_new.jpg") 100 ]} 2
                 {[ "5_new.jpg" := [Byte.xff] ]}))).
Proof.
  intros H.
  destruct (H 1 (Row "Widget" None (Some "5_new.jpg") 100) "5_new.jpg" eq_refl eq_refl)
    as [b Hb].
  discriminate Hb.
Qed.

(** ** The listing *)

#[global] Instance by_id_trans : Transitive by_id.
Proof. unfold by_id. intros a b c. lia. Qed.

#[global] Instance by_id_total : Total by_id.
Proof. unfold by_id. intros a b. lia. Qed.

Lemma map_fmap {A B} (f : A -> B) (l : list A) : map f l = f <$> l.
Proof. induction l; simpl; [reflexivity | f_equal; assumption]. Qed.

Lemma sorted_strict (l : list Z) :
  StronglySorted Z.le l -> NoDup l -> StronglySorted Z.lt l.
Proof.
  induction 1 as [|x l Hs IH Hall]; intros Hnd; constructor.
  - apply IH. apply NoDup_cons in Hnd as [_ Hnd]. exact Hnd.
  - apply NoDup_cons in Hnd as [Hx _].
    apply Forall_forall. intros y Hy.
    pose proof (proj1 (Forall_forall _ _) Hall y Hy) as Hle. simpl in Hle.
    assert (x <> y) by (intros ->; exact (Hx Hy)). lia.
Qed.

Lemma sql_select_all_rows (s : store) :
  merge_sort by_id (map_to_list (inventory s)) ≡ₚ map_to_list (inventory s).
Proof. apply merge_sort_Permutation. Qed.

Lemma get_inventory_run (s : store) :
  get_inventory s
    = ([], s, Ret (Json 200 (map to_view (merge_sort by_id (map_to_list (inventory s)))))).
Proof. reflexivity. Qed.

Lemma listed_iff (s : store) (v : view) :
  v ∈ map to_view (merge_sort by_id (map_to_list (inventory s))) <->
  exists id r, inventory s !! id = Some r /\ v = to_view (id, r).
Proof.
  rewrite map_fmap, list_elem_of_fmap. split.
  - intros ([id r] & -> & Hin). rewrite sql_select_all_rows in Hin.
    apply elem_of_map_to_list in Hin. eauto.
  - intros (id & r & Hr & ->). exists (id, r). split; [reflexivity|].
    rewrite sql_select_all_rows. apply elem_of_map_to_list. exact Hr.
Qed.

(** X1. GET /inventory always answers 200 and changes nothing.  Its array
    has exactly one element per row of the table, built from that row, and
    the elements come in strictly increasing order of id; an empty table
    gives the empty array. *)
Theorem get_inventory_listing (s : store) :
  exists views,
    get_inventory s = ([], s, Ret (Json 200 views)) /\
    StronglySorted Z.lt (map view_id views) /\
    (forall v, v ∈ views <->
       exists id r, inventory s !! id = Some r /\ v = to_view (id, r)) /\
    length views = size (inventory s) /\
    (inventory s = ∅ -> views = []).
Proof.
  exists (map to_view (merge_sort by_id (map_to_list (inventory s)))).
  pose proof (sql_select_all_rows s) as Hperm.
  split; [reflexivity|]. split; [|split; [|split]].
  - rewrite map_map. simpl.
    apply sorted_strict.
    + rewrite map_fmap.
      apply (StronglySorted_fmap fst by_id Z.le); [intros a b H; exact H|].
      apply StronglySorted_merge_sort; apply _.
    + rewrite map_fmap, Hperm. apply NoDup_fst_map_to_list.
  - apply listed_iff.
  - rewrite length_map, Hperm. apply length_map_to_list.
  - intros Hempty. rewrite Hempty, map_to_list_empty. reflexivity.
Qed.

(** ** The search, and the routes that only read *)

Lemma post_search_run id has_photo s :
  post_search id has_photo s =
    if int4 id then
      match inventory s !! id with
      | None => ([], s, Ret (Plain 404 "Not Found"))
      | Some r =>
          ([], s, Ret (Json 200 (Hit id (name r)
             (if bool_decide (has_photo = Some "on") && truthy (photo r)
              then Some (or_empty (description r) +:+ photo_hint id)
              else description r))))
      end
    else ([], s, Ret (Plain 500 "DB error")).
Proof.
  unfold post_search, catching, bind, sql_select, throw, ret.
  destruct (int4 id); [|reflexivity].
  destruct (inventory s !! id) as [r|]; [|reflexivity]. simpl.
  destruct (bool_decide (has_photo = Some "on") && truthy (photo r)); reflexivity.
Qed.

(** X2. POST /search on an id without a record answers 404 "Not Found".  On
    an existing record it answers 200 with the stored id and name; the
    description is the stored one unless [has_photo] is exactly ["on"] and
    the record has a photo, and then it is the stored description (the
    empty string when it is null or empty) followed by a line that carries
    the same URL as the [photo_url] of the record's view. *)
Theorem post_search_hint (s : store) (id : Z) (has_photo : option string) :
  int4 id = true ->
  (inventory s !! id = None ->
     post_search id has_photo s = ([], s, Ret (Plain 404 "Not Found"))) /\
  (forall r, inventory s !! id = Some r ->
     exists d',
       post_search id has_photo s = ([], s, Ret (Json 200 (Hit id (name r) d'))) /\
       (has_photo <> Some "on" \/ truthy (photo r) = false -> d' = description r) /\
       (has_photo = Some "on" -> truthy (photo r) = true ->
          exists url, photo_url id (photo r) = Some url /\
            d' = Some (or_empty (description r)
                       +:+ String "010"%char ("Фото: " +:+ url)))).
Proof.
  intros Hid. rewrite post_search_run, Hid. split.
  - intros ->. reflexivity.
  - intros r ->. eexists. split; [reflexivity|]. split.
    + intros [Hne | Hph].
      * rewrite bool_decide_eq_false_2 by exact Hne. reflexivity.
      * rewrite Hph, andb_false_r. reflexivity.
    + intros -> Hph. unfold photo_url. rewrite Hph. eexists. split; [reflexivity|].
      reflexivity.
Qed.

Lemma post_search_hint_witness :
  exists d',
    post_search 1 (Some "on") catalogue
      = ([], catalogue, Ret (Json 200 (Hit 1 "Widget" d'))) /\
    (Some "on" <> Some "on" \/ truthy (photo widget) = false -> d' = description widget) /\
    (Some "on" = Some "on" -> truthy (photo widget) = true ->
       exists url, photo_url 1 (photo widget) = Some url /\
         d' = Some (or_empty (description widget)
                    +:+ String "010"%char ("Фото: " +:+ url))).
Proof.
  destruct (post_search_hint catalogue 1 (Some "on")) as [_ H]; [reflexivity|].
  apply (H widget). reflexivity.
Defined.

(** X3. The four reading routes (GET /inventory, GET /inventory/:id,
    GET /inventory/:id/photo, POST /search) perform no mutation, whatever
    they are asked and whatever they answer: both stores are as before. *)
Theorem reads_do_not_mutate (s : store) (id : Z) (has_photo : option string) :
  (steps_of (get_inventory s) = [] /\ final_of (get_inventory s) = s) /\
  (steps_of (get_item id s) = [] /\ final_of (get_item id s) = s) /\
  (steps_of (get_photo id s) = [] /\ final_of (get_photo id s) = s) /\
  (steps_of (post_search id has_photo s) = [] /\
   final_of (post_search id has_photo s) = s).
Proof.
  split; [split; reflexivity|].
  rewrite get_item_run, get_photo_run, post_search_run.
  unfold steps_of, final_of.
  destruct (int4 id); [|repeat split].
  destruct (inventory s !! id) as [r|]; [|repeat split].
  split; [split; reflexivity|]. split; [|split; reflexivity].
  destruct (photo r) as [[|c p]|]; try (split; reflexivity).
  destruct (uploads s !! String c p); split; reflexivity.
Qed.

(** X4. GET /inventory/:id/photo answers 200 only with the content of the
    file that the record of that id names, and always as [image/jpeg]:
    a 200 answer means that the record exists, that its photo is a
    non-empty name and that the file of that name holds the bytes sent. *)
Theorem get_photo_ok_inv (s : store) (id : Z) (b : body) :
  result_of (get_photo id s) = Ret (Response 200 b) ->
  exists r f data,
    inventory s !! id = Some r /\ photo r = Some f /\ f <> "" /\
    uploads s !! f = Some data /\ b = File "image/jpeg" data.
Proof.
  rewrite get_photo_run. unfold result_of.
  destruct (int4 id); [|discriminate].
  destruct (inventory s !! id) as [r|] eqn:Hr; [|discriminate].
  destruct (photo r) as [[|c p]|] eqn:Hp; try discriminate.
  destruct (uploads s !! String c p) as [data|] eqn:Hf; [|discriminate].
  simpl. intros [= <-]. exists r, (String c p), data.
  split; [reflexivity|]. split; [exact Hp|]. split; [discriminate|].
  split; [exact Hf | reflexivity].
Qed.

Lemma get_photo_ok_inv_witness :
  exists r f data,
    inventory catalogue !! 1 = Some r /\ photo r = Some f /\ f <> "" /\
    uploads catalogue !! f = Some data /\
    File "image/jpeg" [Byte.xff; Byte.xd8] = File "image/jpeg" data.
Proof. apply (get_photo_ok_inv catalogue 1). reflexivity. Defined.

(** ** Reading back what was written *)



(** X6. After a delete that answered 200, the record is gone for every
    route: GET /inventory/:id, GET /inventory/:id/photo and POST /search
    answer 404 "Not Found" for that id, and the listing has no element with
    that id. *)
Theorem delete_then_reads_not_found (s : store) (id : Z) (has_photo : option string) :
  result_of (delete_item id s) = Ret deleted_ok ->
  result_of (get_item id (final_of (delete_item id s))) = Ret not_found /\
  result_of (get_photo id (final_of (delete_item id s))) = Ret not_found /\
  result_of (post_search id has_photo (final_of (delete_item id s)))
    = Ret (Plain 404 "Not Found") /\
  forall views,
    result_of (get_inventory (final_of (delete_item id s))) = Ret (Json 200 views) ->
    forall v, v ∈ views -> view_id v <> id.
Proof.
  rewrite (delete_item_run id s).
  destruct (int4 id) eqn:Hid; [|discriminate].
  destruct (inventory s !! id) as [r|] eqn:Hr; [|discriminate].
  intros _.
  change (final_of _) with (drop_row id (after_unlink (photo r) s)).
  assert (Hgone : inventory (drop_row id (after_unlink (photo r) s)) !! id = None)
    by apply lookup_delete_eq.
  revert Hgone. generalize (drop_row id (after_unlink (photo r) s)). intros s' Hgone.
  rewrite get_item_run, get_photo_run, post_search_run, Hid, Hgone.
  split; [reflexivity|]. split; [reflexivity|]. split; [reflexivity|].
  intros views Hviews v Hv Heq.
  rewrite get_inventory_run in Hviews. injection Hviews as <-.
  apply listed_iff in Hv as (j & rj & Hj & ->). simpl in Heq. subst j. congruence.
Qed.

Lemma delete_then_reads_not_found_witness :
  result_of (get_item 1 (final_of (delete_item 1 catalogue))) = Ret not_found /\
  result_of (get_photo 1 (final_of (delete_item 1 catalogue))) = Ret not_found /\
  result_of (post_search 1 None (final_of (delete_item 1 catalogue)))
    = Ret (Plain 404 "Not Found") /\
  forall views,
    result_of (get_inventory (final_of (delete_item 1 catalogue))) = Ret (Json 200 views) ->
    forall v, v ∈ views -> view_id v <> 1.
Proof. apply (delete_then_reads_not_found catalogue 1 None). reflexivity. Defined.

(** X7. After a replacement that answered 200 with the updated row, and
    when the stored name of the new file differs from the name the row had,
    GET /inventory/:id/photo answers 200 with exactly the new bytes, and the
    file the row named before is no longer in the uploads directory. *)
Theorem replace_then_fetch (e : env) (s : store) (id : Z) (p : part) (r : row) (it : item) :
  inventory s !! id = Some r ->
  photo r <> Some (filename e p) ->
  result_of (put_photo e id (Some p) s) = Ret (Response 200 (JsonItem (Some it))) ->
  get_photo id (final_of (put_photo e id (Some p) s))
    = ([], final_of (put_photo e id (Some p) s),
       Ret (Response 200 (File "image/jpeg" (content p)))) /\
  (forall old, photo r = Some old -> old <> "" ->
     uploads (final_of (put_photo e id (Some p) s)) !! old = None).
Proof.
  intros Hr Hne. rewrite put_photo_run_file.
  destruct (int4 id) eqn:Hid; [|discriminate]. rewrite Hr. simpl.
  destruct (varchar255 (filename e p)); [|discriminate].
  unfold result_of, final_of. simpl. intros _.
  pose proof (truthy_filename e p) as Ht.
  split.
  - rewrite get_photo_run, Hid. simpl. rewrite lookup_insert_eq. simpl.
    destruct (filename e p) as [|c f] eqn:Hf; [discriminate|].
    assert (Hnew : without (photo r) (<[String c f := content p]> (uploads s))
                     !! String c f = Some (content p)).
    { destruct (photo r) as [[|c' o]|]; simpl; try apply lookup_insert_eq.
      rewrite lookup_delete_ne by congruence. apply lookup_insert_eq. }
    rewrite Hnew. reflexivity.
  - intros old Hold Hnz. rewrite Hold. destruct old as [|c o]; [congruence|].
    simpl. apply lookup_delete_eq.
Qed.

Lemma replace_then_fetch_witness :
  get_photo 1 (final_of (put_photo noon 1 (Some new_photo) catalogue))
    = ([], final_of (put_photo noon 1 (Some new_photo) catalogue),
       Ret (Response 200 (File "image/jpeg" (content new_photo)))) /\
  (forall old, photo widget = Some old -> old <> "" ->
     uploads (final_of (put_photo noon 1 (Some new_photo) catalogue)) !! old = None).
Proof.
  apply (replace_then_fetch noon catalogue 1 new_photo widget
           (Item 1 "Widget" (Some "spare part") (Some "5_new.jpg")));
    [reflexivity | discriminate | reflexivity].
Defined.

(** ** What replace, delete and create leave alone *)

(** X8. PUT /inventory/:id/photo, whatever it answers, leaves the id
    sequence and every other row as they were, keeps the name, description
    and created_at of the addressed row, creates no row, and changes no
    file other than the one that gets the new stored name and the one the
    addressed row named. *)
Theorem put_photo_frame (e : env) (s : store) (id : Z) (file : option part) :
  inventory_id_seq (final_of (put_photo e id file s)) = inventory_id_seq s /\
  (forall j, j <> id ->
     inventory (final_of (put_photo e id file s)) !! j = inventory s !! j) /\
  (inventory s !! id = None ->
     inventory (final_of (put_photo e id file s)) !! id = None) /\
  (forall r, inventory s !! id = Some r ->
     exists r', inventory (final_of (put_photo e id file s)) !! id = Some r' /\
       name r' = name r /\ description r' = description r /\
       created_at r' = created_at r) /\
  (forall f, uploads (final_of (put_photo e id file s)) !! f <> uploads s !! f ->
     (exists p, file = Some p /\ f = filename e p) \/
     (exists r, inventory s !! id = Some r /\ photo r = Some f)).
Proof.
  destruct file as [p|].
  2:{ assert (Hfin : final_of (put_photo e id None s) = s).
      { rewrite put_photo_run_nofile. unfold final_of.
        destruct (int4 id), (inventory s !! id); reflexivity. }
      rewrite Hfin.
      split; [reflexivity|]. split; [reflexivity|]. split; [intros H; exact H|].
      split; [intros r Hr; exists r; repeat split; exact Hr|].
      intros f Hf. exfalso. apply Hf. reflexivity. }
  assert (Hnew : forall f, <[filename e p := content p]> (uploads s) !! f <> uploads s !! f ->
            f = filename e p).
  { intros f Hf. destruct (decide (f = filename e p)) as [|Hne]; [assumption|].
    rewrite lookup_insert_ne in Hf by congruence. congruence. }
  destruct (inventory s !! id) as [r|] eqn:Hr.
  - assert (Hfin : exists r',
              (r' = r \/ r' = with_photo (filename e p) r) /\
              inventory (final_of (put_photo e id (Some p) s)) = <[id := r']> (inventory s) /\
              inventory_id_seq (final_of (put_photo e id (Some p) s)) = inventory_id_seq s /\
              (uploads (final_of (put_photo e id (Some p) s))
                 = <[filename e p := content p]> (uploads s) \/
               uploads (final_of (put_photo e id (Some p) s))
                 = without (photo r) (<[filename e p := content p]> (uploads s)))).
    { rewrite put_photo_run_file, Hr. unfold final_of.
      destruct (int4 id); simpl;
        [|exists r; rewrite insert_id by exact Hr; auto].
      destruct (varchar255 (filename e p)); simpl.
      - exists (with_photo (filename e p) r). auto.
      - exists r. rewrite insert_id by exact Hr. auto. }
    destruct Hfin as (r' & Hr' & -> & -> & Hup).
    split; [reflexivity|]. split; [intros j Hj; apply lookup_insert_ne; congruence|].
    split; [discriminate|]. split.
    + intros r0 [= <-]. rewrite lookup_insert_eq. exists r'. split; [reflexivity|].
      destruct Hr' as [-> | ->]; repeat split.
    + intros f Hf. destruct Hup as [Hup | Hup]; rewrite Hup in Hf.
      * left. exists p. split; [reflexivity | exact (Hnew f Hf)].
      * destruct (photo r) as [[|c o]|] eqn:Hp; simpl in Hf;
          try (left; exists p; split; [reflexivity | exact (Hnew f Hf)]).
        destruct (decide (f = String c o)) as [->|Hne]; [right; eauto|].
        rewrite lookup_delete_ne in Hf by congruence.
        left. exists p. split; [reflexivity | exact (Hnew f Hf)].
  - assert (Hfin : final_of (put_photo e id (Some p) s) = stored e p s).
    { rewrite put_photo_run_file, Hr. unfold final_of. destruct (int4 id); reflexivity. }
    rewrite Hfin. simpl.
    split; [reflexivity|]. split; [reflexivity|]. split; [intros _; exact Hr|].
    split; [intros r; rewrite Hr; discriminate|].
    intros f Hf. left. exists p. split; [reflexivity | exact (Hnew f Hf)].
Qed.

Lemma put_photo_frame_witness :
  exists r', inventory (final_of (put_photo noon 1 (Some new_photo) catalogue)) !! 1 = Some r' /\
    name r' = "Widget" /\ description r' = Some "spare part" /\ created_at r' = 100.
Proof.
  destruct (put_photo_frame noon catalogue 1 (Some new_photo)) as (_ & _ & _ & H & _).
  apply (H widget). reflexivity.
Defined.

(** X9. DELETE /inventory/:id, whatever it answers, leaves the id sequence
    and every other row as they were, and changes no file other than the
    one the addressed row named. *)
Theorem delete_item_frame (s : store) (id : Z) :
  inventory_id_seq (final_of (delete_item id s)) = inventory_id_seq s /\
  (forall j, j <> id ->
     inventory (final_of (delete_item id s)) !! j = inventory s !! j) /\
  (forall f, uploads (final_of (delete_item id s)) !! f <> uploads s !! f ->
     exists r, inventory s !! id = Some r /\ photo r = Some f).
Proof.
  rewrite delete_item_run. unfold final_of.
  destruct (int4 id); [|simpl; split; [|split]; try reflexivity;
                        intros f Hf; exfalso; apply Hf; reflexivity].
  destruct (inventory s !! id) as [r|] eqn:Hr;
    [|simpl; split; [|split]; try reflexivity;
      intros f Hf; exfalso; apply Hf; reflexivity].
  simpl. split; [reflexivity|]. split; [intros j Hj; apply lookup_delete_ne; congruence|].
  intros f Hf. exists r. split; [reflexivity|].
  destruct (photo r) as [[|c o]|]; simpl in Hf; try (exfalso; apply Hf; reflexivity).
  destruct (decide (f = String c o)) as [->|Hne]; [reflexivity|].
  rewrite lookup_delete_ne in Hf by congruence. exfalso. apply Hf. reflexivity.
Qed.

Lemma delete_item_frame_witness :
  inventory (final_of (delete_item 1 (Store {[ 1 := widget; 2 := widget ]} 3 ∅))) !! 2
    = Some widget.
Proof.
  destruct (delete_item_frame (Store {[ 1 := widget; 2 := widget ]} 3 ∅) 1) as (_ & H & _).
  rewrite (H 2); [reflexivity | discriminate].
Defined.

(** X10. POST /register, whatever it answers, keeps every existing row as
    it is, adds at most one row, under the value the sequence had, removes
    no file, and changes no file other than the one that gets the stored
    name of the upload. *)
Theorem post_register_frame (e : env) (s : store) (n d : option string) (file : option part) :
  (forall j r, inventory s !! j = Some r ->
     inventory (final_of (post_register e n d file s)) !! j = Some r) /\
  (forall j, is_Some (inventory (final_of (post_register e n d file s)) !! j) ->
     is_Some (inventory s !! j) \/ j = inventory_id_seq s) /\
  (forall f, is_Some (uploads s !! f) ->
     is_Some (uploads (final_of (post_register e n d file s)) !! f)) /\
  (forall f, uploads (final_of (post_register e n d file s)) !! f <> uploads s !! f ->
     exists p, file = Some p /\ f = filename e p).
Proof.
  assert (Hfin : (inventory (final_of (post_register e n d file s)) = inventory s \/
                  exists r, inventory s !! inventory_id_seq s = None /\
                    inventory (final_of (post_register e n d file s))
                      = <[inventory_id_seq s := r]> (inventory s)) /\
                 uploads (final_of (post_register e n d file s))
                   = uploads (uploaded e file s)).
  { rewrite post_register_run. unfold final_of.
    assert (Hi : inventory (uploaded e file s) = inventory s) by (destruct file; reflexivity).
    assert (Hq : inventory_id_seq (uploaded e file s) = inventory_id_seq s)
      by (destruct file; reflexivity).
    destruct n as [[|c nm]|]; simpl; auto.
    destruct (varchar255 (String c nm) && varchar255_opt (req_file e file)
              && seq_can_issue (inventory_id_seq s)); simpl; auto.
    destruct (inventory s !! inventory_id_seq s) eqn:Hfree; simpl; auto.
    rewrite Hi, Hq. split; [|reflexivity]. right. eauto. }
  destruct Hfin as [Hinv Hup]. rewrite Hup.
  split; [|split; [|split]].
  - intros j r Hj. destruct Hinv as [-> | (r0 & Hfree & ->)]; [exact Hj|].
    rewrite lookup_insert_ne; [exact Hj | congruence].
  - intros j Hj. destruct Hinv as [Heq | (r0 & Hfree & Heq)]; rewrite Heq in Hj; [auto|].
    apply lookup_insert_is_Some in Hj as [<- | [_ Hj]]; auto.
  - intros f Hf. destruct file as [p|]; simpl; [|exact Hf].
    apply lookup_insert_is_Some'. right. exact Hf.
  - intros f Hf. destruct file as [p|]; simpl in Hf; [|exfalso; apply Hf; reflexivity].
    exists p. split; [reflexivity|].
    destruct (decide (f = filename e p)) as [|Hne]; [assumption|].
    rewrite lookup_insert_ne in Hf by congruence. exfalso. apply Hf. reflexivity.
Qed.

Lemma post_register_frame_witness :
  inventory (final_of (post_register noon (Some "Bolt") None (Some new_photo) catalogue)) !! 1
    = Some widget.
Proof.
  destruct (post_register_frame noon catalogue (Some "Bolt") None (Some new_photo))
    as (H & _).
  apply H. reflexivity.
Defined.

(** X11. An upload is stored even when the request is turned down: after a
    POST /register that answers 400, and after a PUT /inventory/:id/photo
    that answers 404, the uploads directory holds the sent bytes under the
    stored name (in place of whatever file had that name), while the table
    is unchanged. *)
Theorem rejected_upload_is_kept (e : env) (s : store) (n d : option string) (id : Z)
    (p : part) :
  (forall b, result_of (post_register e n d (Some p) s) = Ret (Response 400 b) ->
     uploads (final_of (post_register e n d (Some p) s)) !! filename e p
       = Some (content p) /\
     inventory (final_of (post_register e n d (Some p) s)) = inventory s) /\
  (forall b, result_of (put_photo e id (Some p) s) = Ret (Response 404 b) ->
     uploads (final_of (put_photo e id (Some p) s)) !! filename e p
       = Some (content p) /\
     inventory (final_of (put_photo e id (Some p) s)) = inventory s).
Proof.
  split; intros b.
  - rewrite post_register_run. unfold result_of, final_of.
    destruct n as [[|c nm]|]; simpl;
      try (intros _; split; [apply lookup_insert_eq | reflexivity]).
    destruct (varchar255 (String c nm) && varchar255 (filename e p)
              && seq_can_issue (inventory_id_seq s)); [|simpl; discriminate].
    destruct (inventory s !! inventory_id_seq s); simpl; discriminate.
  - rewrite put_photo_run_file. unfold result_of, final_of.
    destruct (int4 id); [|simpl; discriminate].
    destruct (inventory s !! id) as [r|];
      [|simpl; intros _; split; [apply lookup_insert_eq | reflexivity]].
    simpl. destruct (varchar255 (filename e p)); simpl; discriminate.
Qed.

Lemma rejected_upload_is_kept_witness :
  uploads (final_of (put_photo noon 7 (Some new_photo) catalogue)) !! "5_new.jpg"
    = Some [Byte.x89; Byte.x50] /\
  inventory (final_of (put_photo noon 7 (Some new_photo) catalogue)) = inventory catalogue.
Proof.
  destruct (rejected_upload_is_kept noon catalogue None None 7 new_photo) as [_ H].
  apply (H (Text "Not Found")). reflexivity.
Defined.

(** ** Repeating a text update *)

Lemma with_text_twice n d r : with_text n d (with_text n d r) = with_text n d r.
Proof. destruct n, d; reflexivity. Qed.

(** X12. The text update is idempotent: sending the same
    PUT /inventory/:id a second time gives the same answer and leaves the
    stores exactly as the first one left them. *)
Theorem put_item_twice (s : store) (id : Z) (n d : option string) :
  result_of (put_item id n d (final_of (put_item id n d s)))
    = result_of (put_item id n d s) /\
  final_of (put_item id n d (final_of (put_item id n d s)))
    = final_of (put_item id n d s).
Proof.
  rewrite (put_item_run id n d s).
  destruct (int4 id) eqn:Hid;
    [|cbv [final_of result_of fst snd]; rewrite put_item_run, Hid; split; reflexivity].
  destruct (inventory s !! id) as [r|] eqn:Hr;
    [|cbv [final_of result_of fst snd]; rewrite put_item_run, Hid, Hr; split; reflexivity].
  destruct (varchar255_opt (or_null n)) eqn:Hfit;
    [|cbv [final_of result_of fst snd]; rewrite put_item_run, Hid, Hr, Hfit;
      split; reflexivity].
  cbv [final_of result_of fst snd]. rewrite put_item_run, Hid, Hfit.
  unfold set_row at 1 2 3. simpl. rewrite lookup_insert_eq, with_text_twice.
  unfold set_row. simpl. rewrite insert_insert_eq. split; reflexivity.
Qed.

(** ** Ids and the sequence *)

(** A row found after a request was there before, or it is the row the
    request created under the value of the sequence. *)
Lemma handle_ids e q s j :
  is_Some (inventory (final_of (handle e q s)) !! j) ->
  is_Some (inventory s !! j) \/
  (j = inventory_id_seq s /\ inventory_id_seq (final_of (handle e q s)) = j + 1).
Proof.
  destruct q as [n d file|id|id n d|id|id file|id]; simpl.
  - rewrite post_register_run. unfold final_of.
    assert (Hi : inventory (uploaded e file s) = inventory s) by (destruct file; reflexivity).
    assert (Hq : inventory_id_seq (uploaded e file s) = inventory_id_seq s)
      by (destruct file; reflexivity).
    destruct n as [[|c nm]|]; simpl; rewrite ?Hi; auto.
    destruct (varchar255 (String c nm) && varchar255_opt (req_file e file)
              && seq_can_issue (inventory_id_seq s)); simpl; rewrite ?Hi; auto.
    destruct (inventory s !! inventory_id_seq s); simpl; rewrite ?Hi, ?Hq; auto.
    intros Hj. apply lookup_insert_is_Some in Hj as [<- | [_ Hj]]; auto.
  - rewrite get_item_run. unfold final_of.
    destruct (int4 id), (inventory s !! id); simpl; auto.
  - rewrite put_item_run. unfold final_of.
    destruct (int4 id), (inventory s !! id) as [r|] eqn:Hr,
      (varchar255_opt (or_null n)); simpl; auto.
    intros Hj. apply lookup_insert_is_Some in Hj as [<- | [_ Hj]]; eauto.
  - rewrite get_photo_run. unfold final_of.
    destruct (int4 id); [|simpl; auto].
    destruct (inventory s !! id) as [r|]; [|simpl; auto].
    destruct (photo r) as [[|c p]|]; try (simpl; auto; fail).
    destruct (uploads s !! String c p); simpl; auto.
  - destruct file as [p|]; rewrite ?put_photo_run_file, ?put_photo_run_nofile;
      unfold final_of;
      destruct (int4 id), (inventory s !! id) as [r|] eqn:Hr; simpl; auto.
    destruct (varchar255 (filename e p)); simpl; auto.
    intros Hj. apply lookup_insert_is_Some in Hj as [<- | [_ Hj]]; eauto.
  - rewrite delete_item_run. unfold final_of.
    destruct (int4 id), (inventory s !! id) as [r|] eqn:Hr; simpl; auto.
    intros Hj. apply lookup_delete_is_Some in Hj as [_ Hj]. auto.
Qed.

(** X13. Every request keeps the ids of the table below the next value of
    the sequence; on such a store no row has that value, so the primary key
    never refuses the INSERT of POST /register. *)
Theorem ids_below_seq_kept (e : env) (q : request) (s : store) :
  ids_below_seq s ->
  ids_below_seq (final_of (handle e q s)) /\
  inventory s !! inventory_id_seq s = None.
Proof.
  intros Hb. split.
  - intros j Hj. destruct (handle_seq e q s) as [Hle _].
    destruct (handle_ids e q s j Hj) as [Hold | [-> Hnext]].
    + specialize (Hb j Hold). lia.
    + lia.
  - destruct (inventory s !! inventory_id_seq s) eqn:Hl; [|reflexivity].
    assert (inventory_id_seq s < inventory_id_seq s) by (apply Hb; eauto). lia.
Qed.

Lemma ids_below_seq_kept_witness :
  ids_below_seq (final_of (handle noon (PostRegister (Some "Bolt") None None) catalogue)) /\
  inventory catalogue !! inventory_id_seq catalogue = None.
Proof.
  apply (ids_below_seq_kept noon (PostRegister (Some "Bolt") None None) catalogue).
  intros id [r Hr]. unfold catalogue in Hr. simpl in Hr.
  apply lookup_singleton_Some in Hr as [<- _]. reflexivity.
Defined.

(** ** Stored file names *)

Lemma pretty_N_char_free x : negb (Ascii.eqb (pretty_N_char x) "_") = true.
Proof. unfold pretty_N_char. repeat case_match; reflexivity. Qed.

Lemma pretty_N_go_free x : forall s,
  free_of "_" s = true -> free_of "_" (pretty_N_go x s) = true.
Proof.
  induction (N.lt_wf_0 x) as [x _ IH]. intros s Hs.
  destruct (decide (x = 0)%N) as [->|Hx]; [rewrite pretty_N_go_0; exact Hs|].
  rewrite pretty_N_go_step by lia. apply IH.
  - apply N.div_lt; lia.
  - simpl. rewrite pretty_N_char_free, Hs. reflexivity.
Qed.

Lemma pretty_N_free (x : N) : free_of "_" (pretty x) = true.
Proof.
  unfold pretty, pretty_N. case_decide; [reflexivity|].
  apply pretty_N_go_free. reflexivity.
Qed.

(** Two names that are free of [c], each followed by [c] and a rest, are
    equal as wholes only if they and their rests are equal. *)
Lemma split_at_first c a : forall a' o o',
  free_of c a = true -> free_of c a' = true ->
  a +:+ String c o = a' +:+ String c o' -> a = a' /\ o = o'.
Proof.
  induction a as [|x a IH]; intros [|x' a'] o o' Ha Ha' Heq; simpl in *.
  - injection Heq as ->. auto.
  - injection Heq as <- _. rewrite Ascii.eqb_refl in Ha'. discriminate.
  - injection Heq as -> _. rewrite Ascii.eqb_refl in Ha. discriminate.
  - injection Heq as -> Heq.
    apply andb_true_iff in Ha as [_ Ha]. apply andb_true_iff in Ha' as [_ Ha'].
    destruct (IH a' o o' Ha Ha' Heq) as [-> ->]. auto.
Qed.

(** X14. The name multer's [filename] gives an upload determines both the
    clock reading and the original name: two uploads get the same stored
    name only when they were named at the same millisecond and carry the
    same original name. *)
Theorem filename_inj (e e' : env) (p p' : part) :
  filename e p = filename e' p' ->
  date_now e = date_now e' /\ originalname p = originalname p'.
Proof.
  unfold filename. intros Heq.
  apply split_at_first in Heq as [Hnow Horig]; try apply pretty_N_free.
  split; [|exact Horig]. exact (pretty_N_inj _ _ Hnow).
Qed.

Lemma filename_inj_witness :
  date_now noon = date_now (Env 5 0) /\
  originalname new_photo = originalname (Part "new.jpg" []).
Proof. apply (filename_inj noon (Env 5 0) new_photo (Part "new.jpg" [])). reflexivity. Defined.

(** ** Routes that agree, and operations that undo each other *)

(** X15. The listing and the single-record route agree: for an id with a
    record, GET /inventory/:id answers 200 with exactly the fields of the
    element the listing has for that id; for an id without a record it
    answers 404 and the listing has no element with that id. *)
Theorem listing_agrees_with_get_item (s : store) (id : Z) :
  int4 id = true ->
  (forall r, inventory s !! id = Some r ->
     result_of (get_item id s)
       = Ret (Response 200 (JsonView (view_id (to_view (id, r)))
                (view_name (to_view (id, r))) (view_description (to_view (id, r)))
                (view_photo_url (to_view (id, r))))) /\
     forall views, result_of (get_inventory s) = Ret (Json 200 views) ->
       to_view (id, r) ∈ views) /\
  (inventory s !! id = None ->
     result_of (get_item id s) = Ret not_found /\
     forall views, result_of (get_inventory s) = Ret (Json 200 views) ->
       forall v, v ∈ views -> view_id v <> id).
Proof.
  intros Hid. rewrite get_item_run, get_inventory_run, Hid. unfold result_of. simpl.
  split.
  - intros r Hr. rewrite Hr. split; [reflexivity|].
    intros views [= <-]. apply listed_iff. eauto.
  - intros Hnone. rewrite Hnone. split; [reflexivity|].
    intros views [= <-] v Hv Heq.
    apply listed_iff in Hv as (j & rj & Hj & ->). simpl in Heq. subst j. congruence.
Qed.

Lemma listing_agrees_with_get_item_witness :
  result_of (get_item 1 catalogue)
    = Ret (Response 200 (JsonView 1 "Widget" (Some "spare part")
             (Some "/inventory/1/photo"))) /\
  forall views, result_of (get_inventory catalogue) = Ret (Json 200 views) ->
    to_view (1, widget) ∈ views.
Proof.
  destruct (listing_agrees_with_get_item catalogue 1) as [H _]; [reflexivity|].
  apply (H widget). reflexivity.
Defined.

(** X16. Creating a record with a file and then deleting it undoes the
    creation: when the creation answered 201 and the stored name of the
    upload was new to the uploads directory, the delete of the returned id
    answers 200, and afterwards the table and the uploads directory are
    what they were before the creation; only the sequence has moved on. *)
Theorem register_then_delete (e : env) (s : store) (n d : option string) (p : part)
    (id : Z) (r : row) :
  uploads s !! filename e p = None ->
  result_of (post_register e n d (Some p) s) = Ret (Response 201 (JsonRecord id r)) ->
  result_of (delete_item id (final_of (post_register e n d (Some p) s))) = Ret deleted_ok /\
  inventory (final_of (delete_item id (final_of (post_register e n d (Some p) s))))
    = inventory s /\
  uploads (final_of (delete_item id (final_of (post_register e n d (Some p) s))))
    = uploads s /\
  inventory_id_seq (final_of (delete_item id (final_of (post_register e n d (Some p) s))))
    = inventory_id_seq s + 1.
Proof.
  intros Hfresh Hres.
  assert (Hfin : final_of (post_register e n d (Some p) s) = inserted r (stored e p s) /\
                 id = inventory_id_seq s /\ photo r = Some (filename e p) /\
                 inventory s !! inventory_id_seq s = None /\
                 int4 (inventory_id_seq s) = true).
  { revert Hres. rewrite post_register_run. unfold result_of, final_of.
    destruct n as [[|c nm]|]; try discriminate.
    destruct (varchar255 (String c nm) && varchar255_opt (req_file e (Some p))
              && seq_can_issue (inventory_id_seq s)) eqn:Hacc; [|discriminate].
    destruct (inventory s !! inventory_id_seq s) eqn:Hfree; [discriminate|].
    simpl. intros [= <- <-].
    apply andb_true_iff in Hacc as [_ Hseq]. apply seq_can_issue_int4 in Hseq.
    repeat split; assumption. }
  destruct Hfin as (-> & -> & Hph & Hfree & Hid).
  rewrite delete_item_run, Hid. simpl. rewrite lookup_insert_eq.
  unfold result_of, final_of. simpl. rewrite Hph.
  pose proof (truthy_filename e p) as Ht.
  destruct (filename e p) as [|c' f] eqn:Hf; [discriminate|]. simpl.
  rewrite !delete_insert_eq, !delete_id by assumption. repeat split.
Qed.

Lemma register_then_delete_witness :
  result_of (delete_item 2
    (final_of (post_register noon (Some "Bolt") None (Some new_photo) catalogue)))
    = Ret deleted_ok /\
  inventory (final_of (delete_item 2
    (final_of (post_register noon (Some "Bolt") None (Some new_photo) catalogue))))
    = inventory catalogue /\
  uploads (final_of (delete_item 2
    (final_of (post_register noon (Some "Bolt") None (Some new_photo) catalogue))))
    = uploads catalogue /\
  inventory_id_seq (final_of (delete_item 2
    (final_of (post_register noon (Some "Bolt") None (Some new_photo) catalogue))))
    = inventory_id_seq catalogue + 1.
Proof.
  apply (register_then_delete noon catalogue (Some "Bolt") None new_photo 2
           (Row "Bolt" None (Some "5_new.jpg") 200)); reflexivity.
Defined.

(** X17. After a text update that answered 200 with the updated row,
    GET /inventory/:id answers 200 with the name and description of that
    answer: what the update reports is what a reader then gets. *)
Theorem put_item_then_get_item (s : store) (id : Z) (n d : option string) (it : item) :
  result_of (put_item id n d s) = Ret (Response 200 (JsonItem (Some it))) ->
  result_of (get_item id (final_of (put_item id n d s)))
    = Ret (Response 200 (JsonView id (item_name it) (item_description it)
             (photo_url id (item_photo it)))).
Proof.
  rewrite put_item_run.
  destruct (int4 id) eqn:Hid; [|discriminate].
  destruct (inventory s !! id) as [r|]; [|discriminate].
  destruct (varchar255_opt (or_null n)); [|discriminate].
  unfold result_of, final_of. simpl. intros [= <-].
  rewrite get_item_run, Hid. simpl. rewrite lookup_insert_eq. reflexivity.
Qed.

Lemma put_item_then_get_item_witness :
  result_of (get_item 1 (final_of (put_item 1 (Some "X") None catalogue)))
    = Ret (Response 200 (JsonView 1 "X" (Some "spare part") (Some "/inventory/1/photo"))).
Proof.
  apply (put_item_then_get_item catalogue 1 (Some "X") None
           (Item 1 "X" (Some "spare part") (Some "old.jpg"))).
  reflexivity.
Defined.

(** X18. A record created without a file has no photo to fetch: after a
    creation without a file part that answered 201, GET /inventory/:id/photo
    on the returned id answers 404 "Photo Not Found", not "Not Found". *)
Theorem register_without_file_then_fetch (e : env) (s : store) (n d : option string)
    (id : Z) (r : row) :
  result_of (post_register e n d None s) = Ret (Response 201 (JsonRecord id r)) ->
  result_of (get_photo id (final_of (post_register e n d None s))) = Ret asset_not_found.
Proof.
  rewrite post_register_run. unfold result_of at 1, final_of.
  destruct n as [[|c nm]|]; try discriminate.
  destruct (varchar255 (String c nm) && varchar255_opt (req_file e None)
            && seq_can_issue (inventory_id_seq s)) eqn:Hacc; [|discriminate].
  destruct (inventory s !! inventory_id_seq s); [discriminate|].
  simpl. intros [= <- <-].
  apply andb_true_iff in Hacc as [_ Hseq]. apply seq_can_issue_int4 in Hseq.
  rewrite get_photo_run, Hseq. simpl. rewrite lookup_insert_eq. reflexivity.
Qed.

Lemma register_without_file_then_fetch_witness :
  result_of (get_photo 2 (final_of (post_register noon (Some "Bolt") None None catalogue)))
    = Ret asset_not_found.
Proof.
  apply (register_without_file_then_fetch noon catalogue (Some "Bolt") None 2
           (Row "Bolt" None None 200)).
  reflexivity.
Defined.
